(** * jaffle_shop_dlt: the paginated fetcher and the staged run harness

    A shallow embedding of the three Python modules of the repository
    ([jaffle_shop_pipeline.py], [deploy_pipeline.py] and
    [jaffle_shop_pipeline_optimized.py]) and the properties of their
    pagination generator [get_paginated_data] and of their timing harness
    [run_pipeline].

    - Python values decoded from JSON are the inductive type [pyval];
      Python's unbounded [int] is [Z] and its [float] is a binary64
      primitive float.
    - Exceptions are explicit: fallible operations return [result].
    - A generator is a resumable frame with a [next] function; everything a
      resumption does to the outside world (HTTP requests, log lines) is
      recorded as a list of events.
    - The harness is written in a small state-and-exception monad whose
      state holds the clock, the log and the calls made on the pipeline. *)

From Stdlib Require Import ZArith String List Bool Lia PrimFloat.
From stdpp Require Import base option list gmap strings.

Set Warnings "-register-all".

(** ** Python values, truthiness and [len] *)

Module Py.

(** What [json.loads] can return. A [PyDict] holds the items of the decoded
    dict in insertion order, keys distinct. *)
Inductive pyval : Type :=
| PyNone
| PyBool (b : bool)
| PyInt (n : Z)
| PyFloat (x : float)
| PyStr (s : string)
| PyList (xs : list pyval)
| PyDict (items : list (string * pyval)).

(** The exceptions that occur in the modelled code. [Exception] stands for
    any other exception, named by its class. *)
Inductive exn : Type :=
| HTTPError (status : Z)
| JSONDecodeError
| TypeError
| Exception (cls : string).

Inductive result (A : Type) : Type :=
| Ok (a : A)
| Raise (e : exn).
Arguments Ok {A} a.
Arguments Raise {A} e.

(** [bool(v)], the truth value used by [not v] and [if v]. *)
Definition truthy (v : pyval) : bool :=
  match v with
  | PyNone => false
  | PyBool b => b
  | PyInt n => negb (n =? 0)%Z
  | PyFloat x => negb (PrimFloat.eqb x 0%float)
  | PyStr s => negb (String.eqb s "")
  | PyList xs => match xs with [] => false | _ :: _ => true end
  | PyDict items => match items with [] => false | _ :: _ => true end
  end.

(** [len(v)]: defined on strings, lists and dicts, [TypeError] on
    [None], booleans and numbers. *)
Definition len (v : pyval) : result Z :=
  match v with
  | PyStr s => Ok (Z.of_nat (String.length s))
  | PyList xs => Ok (Z.of_nat (List.length xs))
  | PyDict items => Ok (Z.of_nat (List.length items))
  | PyNone | PyBool _ | PyInt _ | PyFloat _ => Raise TypeError
  end.

End Py.
Export Py.

(** ** The [requests] library, as far as the code uses it *)

Module Requests.

(** [requests.get(url, params={'page': page})]: the target and the query
    parameters. *)
Record Request : Type := mkRequest {
  url : string;
  params : list (string * Z)
}.

(** A response: its status code and its body, [None] when the body is not
    valid JSON. *)
Record Response : Type := mkResponse {
  status_code : Z;
  body : option pyval
}.

(** The remote side: what [requests.get] returns, or the exception it
    raises when no response arrives. *)
Definition Server : Type := Request -> result Response.

(** [Response.raise_for_status()]: raises [HTTPError] for the client-error
    statuses 400..499 and the server-error statuses 500..599, returns
    normally for every other status. *)
Definition raise_for_status (r : Response) : result unit :=
  if ((400 <=? status_code r) && (status_code r <? 600))%Z
  then Raise (HTTPError (status_code r))
  else Ok tt.

(** [Response.json()]. *)
Definition json (r : Response) : result pyval :=
  match body r with
  | Some v => Ok v
  | None => Raise JSONDecodeError
  end.

End Requests.
Export Requests.

(** ** Generators and their observable behaviour *)

(** What a run does to the outside world and to its consumer. *)
Inductive Event : Type :=
| EGet (rq : Request)
| EYield (v : pyval)
| ELog (msg : string).

(** The result of one [next()] on a generator. *)
Inductive Resumed : Type :=
| Yielded (v : pyval)
| StopIteration
| Raised (e : exn).

(** The frame of a [get_paginated_data] generator: not started yet (holding
    its argument), suspended at the [yield] with its local variables, or
    finished. *)
Inductive Frame : Type :=
| Created (endpoint : string)
| AtYield (endpoint url : string) (page : Z) (data : pyval)
| Exhausted.

(** A generator function body, as the function that resumes a frame: the
    events of the resumption, its result and the next frame. *)
Definition Generator : Type := Frame -> list Event * Resumed * Frame.

(** How a run of a consumer ended. [Pending] is a generator that is still
    suspended when the consumer stopped asking. *)
Inductive Outcome : Type :=
| Finished
| Failed (e : exn)
| Pending.

(** [for page in g: yield page], for a consumer that asks at most [pulls]
    times: the events in order, the pages handed over included. *)
Fixpoint consume (g : Generator) (pulls : nat) (f : Frame) : list Event * Outcome :=
  match pulls with
  | O => ([], Pending)
  | S pulls' =>
      match g f with
      | (evs, Yielded v, f') =>
          let (rest, o) := consume g pulls' f' in
          (evs ++ EYield v :: rest, o)
      | (evs, StopIteration, _) => (evs, Finished)
      | (evs, Raised e, _) => (evs, Failed e)
      end
  end.

(** The part of a loop iteration that every variant shares textually:
    [response = requests.get(url, params={'page': page})],
    [response.raise_for_status()], [data = response.json()]. *)
Definition fetch_page (server : Server) (url : string) (page : Z) : result pyval :=
  match server (mkRequest url [("page", page)]) with
  | Raise e => Raise e
  | Ok response =>
      match raise_for_status response with
      | Raise e => Raise e
      | Ok _ => json response
      end
  end.

(** [not data or len(data) == 0], with the short circuit of [or]. *)
Definition page_is_last (data : pyval) : result bool :=
  if negb (truthy data) then Ok true
  else match len data with
       | Ok n => Ok (n =? 0)%Z
       | Raise e => Raise e
       end.

(** *** jaffle_shop_pipeline.py *)

Module JaffleShopPipeline.

Definition BASE_URL : string := "https://jaffle-shop.scalevector.ai/api/v1".

(** From the top of the [while True] body to the [yield]. *)
Definition iteration (server : Server) (endpoint url : string) (page : Z)
  : list Event * Resumed * Frame :=
  match fetch_page server url page with
  | Raise e => ([EGet (mkRequest url [("page", page)])], Raised e, Exhausted)
  | Ok data =>
      ([EGet (mkRequest url [("page", page)])], Yielded data,
       AtYield endpoint url page data)
  end.

Definition get_paginated_data (server : Server) : Generator :=
  fun f =>
    match f with
    | Created endpoint =>
        let url := BASE_URL +:+ "/" +:+ endpoint in
        let page := 1%Z in
        iteration server endpoint url page
    | AtYield endpoint url page data =>
        match page_is_last data with
        | Raise e => ([], Raised e, Exhausted)
        | Ok true =>
            ([ELog ("Finished fetching " +:+ endpoint +:+ " data")],
             StopIteration, Exhausted)
        | Ok false => iteration server endpoint url (page + 1)%Z
        end
    | Exhausted => ([], StopIteration, Exhausted)
    end.

End JaffleShopPipeline.

(** *** deploy_pipeline.py *)

Module DeployPipeline.

Definition BASE_URL : string := "https://jaffle-shop.scalevector.ai/api/v1".

Definition iteration (server : Server) (endpoint url : string) (page : Z)
  : list Event * Resumed * Frame :=
  match fetch_page server url page with
  | Raise e => ([EGet (mkRequest url [("page", page)])], Raised e, Exhausted)
  | Ok data =>
      ([EGet (mkRequest url [("page", page)])], Yielded data,
       AtYield endpoint url page data)
  end.

(** The same loop without the log line before [break]. *)
Definition get_paginated_data (server : Server) : Generator :=
  fun f =>
    match f with
    | Created endpoint =>
        let url := BASE_URL +:+ "/" +:+ endpoint in
        let page := 1%Z in
        iteration server endpoint url page
    | AtYield endpoint url page data =>
        match page_is_last data with
        | Raise e => ([], Raised e, Exhausted)
        | Ok true => ([], StopIteration, Exhausted)
        | Ok false => iteration server endpoint url (page + 1)%Z
        end
    | Exhausted => ([], StopIteration, Exhausted)
    end.

End DeployPipeline.

(** *** jaffle_shop_pipeline_optimized.py *)

Module JaffleShopPipelineOptimized.

Definition BASE_URL : string := "https://jaffle-shop.scalevector.ai/api/v1".

Definition iteration (server : Server) (endpoint url : string) (page : Z)
  : list Event * Resumed * Frame :=
  match fetch_page server url page with
  | Raise e => ([EGet (mkRequest url [("page", page)])], Raised e, Exhausted)
  | Ok data =>
      ([EGet (mkRequest url [("page", page)])], Yielded data,
       AtYield endpoint url page data)
  end.

Definition get_paginated_data (server : Server) : Generator :=
  fun f =>
    match f with
    | Created endpoint =>
        let url := BASE_URL +:+ "/" +:+ endpoint in
        let page := 1%Z in
        iteration server endpoint url page
    | AtYield endpoint url page data =>
        match page_is_last data with
        | Raise e => ([], Raised e, Exhausted)
        | Ok true =>
            ([ELog ("Finished fetching " +:+ endpoint +:+ " data")],
             StopIteration, Exhausted)
        | Ok false => iteration server endpoint url (page + 1)%Z
        end
    | Exhausted => ([], StopIteration, Exhausted)
    end.

End JaffleShopPipelineOptimized.

(** The three source files, and the generator each one defines. *)
Inductive Variant : Type :=
| jaffle_shop_pipeline
| deploy_pipeline
| jaffle_shop_pipeline_optimized.

Definition get_paginated_data (v : Variant) (server : Server) : Generator :=
  match v with
  | jaffle_shop_pipeline => JaffleShopPipeline.get_paginated_data server
  | deploy_pipeline => DeployPipeline.get_paginated_data server
  | jaffle_shop_pipeline_optimized => JaffleShopPipelineOptimized.get_paginated_data server
  end.

Definition BASE_URL (v : Variant) : string :=
  match v with
  | jaffle_shop_pipeline => JaffleShopPipeline.BASE_URL
  | deploy_pipeline => DeployPipeline.BASE_URL
  | jaffle_shop_pipeline_optimized => JaffleShopPipelineOptimized.BASE_URL
  end.

(** [fetch v server endpoint pulls]: the generator of variant [v] for
    [endpoint], iterated by a consumer that asks at most [pulls] times. *)
Definition fetch (v : Variant) (server : Server) (endpoint : string) (pulls : nat)
  : list Event * Outcome :=
  consume (get_paginated_data v server) pulls (Created endpoint).

(** *** Reading a trace *)

Definition requests_of (tr : list Event) : list Request :=
  omap (fun ev => match ev with EGet rq => Some rq | _ => None end) tr.

Definition yields_of (tr : list Event) : list pyval :=
  omap (fun ev => match ev with EYield v => Some v | _ => None end) tr.

Definition is_log (ev : Event) : bool :=
  match ev with ELog _ => true | _ => false end.

Definition erase_logs (tr : list Event) : list Event :=
  List.filter (fun ev => negb (is_log ev)) tr.

(** The request for page [n] of [url]. *)
Definition page_request (url : string) (n : Z) : Request :=
  mkRequest url [("page", n)].

(** The pages requested: the value of the [page] parameter of each request. *)
Definition pages_of (tr : list Event) : list Z :=
  omap (fun rq => match params rq with [(_, n)] => Some n | _ => None end)
       (requests_of tr).

(** A page after which the loop goes on: truthy, with a length. *)
Definition continues (d : pyval) : Prop := page_is_last d = Ok false.

(** A server that answers page [i+1] of any URL with status 200 and the
    [i]-th body of [bodies], and 404 beyond them. *)
Definition serve_pages (bodies : list pyval) : Server :=
  fun rq =>
    match params rq with
    | [(_, n)] =>
        match bodies !! (Z.to_nat (n - 1)) with
        | Some d => if (1 <=? n)%Z then Ok (mkResponse 200 (Some d))
                    else Ok (mkResponse 404 None)
        | None => Ok (mkResponse 404 None)
        end
    | _ => Ok (mkResponse 400 None)
    end.

(** ** The staged run harness *)

Module Harness.

Inductive Stage : Type := Extract | Normalize | Load.

(** A log line: literal text and floats printed with [:.2f]. *)
Inductive Frag : Type :=
| Lit (s : string)
| Fixed2 (x : float).

(** What a run of the harness does, in order: log lines, readings of
    [time.time()], the construction of the pipeline, and the calls of
    [pipeline.extract], [pipeline.normalize] and [pipeline.load] with
    their normal returns. *)
Inductive HEvent : Type :=
| HLog (line : list Frag)
| HTime (t : float)
| HPipeline (pipeline_name destination dataset_name progress : string)
| HCall (s : Stage) (resources : list string)
| HReturn (s : Stage).

(** The framework's trace object, opaque to the harness. *)
Definition Trace : Type := string.

(** Everything outside the harness: the clock (the [k]-th reading of
    [time.time()]), [datetime.now().isoformat()], for each stage of the
    external framework the exception it raises, if any, and the trace the
    framework keeps. *)
Record World : Type := mkWorld {
  clock : nat -> float;
  now_isoformat : string;
  extract_raises : option exn;
  normalize_raises : option exn;
  load_raises : option exn;
  last_trace : Trace
}.

Definition stage_raises (w : World) (s : Stage) : option exn :=
  match s with
  | Extract => extract_raises w
  | Normalize => normalize_raises w
  | Load => load_raises w
  end.

(** The state a run threads: how often the clock was read, and the events
    so far, latest first. *)
Record St : Type := mkSt {
  ticks : nat;
  events : list HEvent
}.

Definition M (A : Type) : Type := World -> St -> result A * St.

#[export] Instance M_ret : MRet M := fun A a _ st => (Ok a, st).
#[export] Instance M_bind : MBind M := fun A B k m w st =>
  match m w st with
  | (Ok a, st') => k a w st'
  | (Raise e, st') => (Raise e, st')
  end.

Definition emit (ev : HEvent) : M unit :=
  fun _ st => (Ok tt, mkSt (ticks st) (ev :: events st)).

Definition logger_info (line : list Frag) : M unit := emit (HLog line).

Definition time_time : M float :=
  fun w st =>
    let t := clock w (ticks st) in
    (Ok t, mkSt (S (ticks st)) (HTime t :: events st)).

Definition datetime_now_isoformat : M string :=
  fun w st => (Ok (now_isoformat w), st).

(** A call into the framework: it returns, or raises what the world says. *)
Definition stage_call (s : Stage) (resources : list string) : M unit :=
  fun w st =>
    let st' := mkSt (ticks st) (HCall s resources :: events st) in
    match stage_raises w s with
    | Some e => (Raise e, st')
    | None => (Ok tt, mkSt (ticks st') (HReturn s :: events st'))
    end.

Definition pipeline_extract (source : list string) : M unit := stage_call Extract source.
Definition pipeline_normalize : M unit := stage_call Normalize [].
Definition pipeline_load : M unit := stage_call Load [].

Definition dlt_pipeline (pipeline_name destination dataset_name progress : string) : M unit :=
  emit (HPipeline pipeline_name destination dataset_name progress).

Definition pipeline_last_trace : M Trace :=
  fun w st => (Ok (last_trace w), st).

(** The [stats] dict. The keys added late in the run are absent ([None])
    until they are assigned; [config] exists in the optimized variant only. *)
Record StageStats : Type := mkStageStats { time_seconds : float }.

Record Stats : Type := mkStats {
  pipeline_name : string;
  timestamp : string;
  stages : gmap string StageStats;
  config : option (gmap string (option string));
  total_time_seconds : option float;
  pipeline_trace : option Trace
}.

(** [stats["stages"][name] = {"time_seconds": t}] *)
Definition set_stage (name : string) (t : float) (stats : Stats) : Stats :=
  mkStats (pipeline_name stats) (timestamp stats)
          (<[name := mkStageStats t]> (stages stats))
          (config stats) (total_time_seconds stats) (pipeline_trace stats).

(** [stats["total_time_seconds"] = t] *)
Definition set_total (t : float) (stats : Stats) : Stats :=
  mkStats (pipeline_name stats) (timestamp stats) (stages stats)
          (config stats) (Some t) (pipeline_trace stats).

(** [stats["pipeline_trace"] = tr] *)
Definition set_trace (tr : Trace) (stats : Stats) : Stats :=
  mkStats (pipeline_name stats) (timestamp stats) (stages stats)
          (config stats) (total_time_seconds stats) (Some tr).

Definition nl : string := String (Ascii.ascii_of_nat 10) "".

(** The summary block at the end of [run_pipeline], the same in both
    harnesses. [total] is read back from [stats['total_time_seconds']]. *)
Definition log_summary (stats : Stats) (extract_time normalize_time load_time : float)
  : M unit :=
  logger_info [Lit (nl +:+ nl +:+ "=== Pipeline Performance Stats ===")];;
  logger_info [Lit ("Pipeline: " +:+ pipeline_name stats)];;
  logger_info [Lit ("Timestamp: " +:+ timestamp stats)];;
  logger_info [Lit (nl +:+ "Stage Times:")];;
  logger_info [Lit "Extract: "; Fixed2 extract_time; Lit "s"];;
  logger_info [Lit "Normalize: "; Fixed2 normalize_time; Lit "s"];;
  logger_info [Lit "Load: "; Fixed2 load_time; Lit "s"];;
  match total_time_seconds stats with
  | Some total => logger_info [Lit (nl +:+ "Total Time: "); Fixed2 total; Lit "s"]
  | None => fun _ st => (Raise (Exception "KeyError"), st)
  end.

(** Running a computation from the initial state: the result and the
    events in the order they happened. *)
Definition run {A : Type} (m : M A) (w : World) : result A * list HEvent :=
  match m w (mkSt 0 []) with
  | (r, st) => (r, rev (events st))
  end.

(** The exit status of the interpreter when the module's entry point ends
    with result [r]: 0 after a normal end, 1 after an uncaught exception. *)
Definition exit_status {A : Type} (r : result A) : Z :=
  match r with
  | Ok _ => 0
  | Raise _ => 1
  end.

End Harness.
Export Harness.

(** *** jaffle_shop_pipeline.py: [run_pipeline] *)

Module JaffleShopPipelineRun.

(** [jaffle_shop_source()]: the customers resource only, the orders
    resource is commented out. *)
Definition jaffle_shop_source : list string := ["customers"].

(** The model returns the [stats] dict as it stands at the last statement;
    the Python function itself returns [None] after logging it. When an
    exception propagates, the dict is lost with the frame. *)
Definition run_pipeline : M Stats :=
  ts ← datetime_now_isoformat;
  let stats := mkStats "jaffle_shop" ts ∅ None None None in
  logger_info [Lit "Initializing pipeline"];;
  dlt_pipeline "jaffle_shop" "duckdb" "jaffle_shop_data" "log";;
  (* Measure extract time *)
  logger_info [Lit "Starting extraction stage"];;
  extract_start ← time_time;
  pipeline_extract jaffle_shop_source;;
  t ← time_time;
  let extract_time := (t - extract_start)%float in
  let stats := set_stage "extract" extract_time stats in
  logger_info [Lit "Extraction completed in "; Fixed2 extract_time; Lit "s"];;
  (* Measure normalize time *)
  logger_info [Lit "Starting normalization stage"];;
  normalize_start ← time_time;
  pipeline_normalize;;
  t ← time_time;
  let normalize_time := (t - normalize_start)%float in
  let stats := set_stage "normalize" normalize_time stats in
  logger_info [Lit "Normalization completed in "; Fixed2 normalize_time; Lit "s"];;
  (* Measure load time *)
  logger_info [Lit "Starting load stage"];;
  load_start ← time_time;
  t ← time_time;
  let load_time := (t - load_start)%float in
  let stats := set_stage "load" load_time stats in
  logger_info [Lit "Load completed in "; Fixed2 load_time; Lit "s"];;
  (* Add total time and trace *)
  let stats := set_total (extract_time + normalize_time + load_time)%float stats in
  tr ← pipeline_last_trace;
  let stats := set_trace tr stats in
  log_summary stats extract_time normalize_time load_time;;
  mret stats.

(** [if __name__ == "__main__": run_pipeline()] *)
Definition main : M Stats := run_pipeline.

End JaffleShopPipelineRun.

(** *** jaffle_shop_pipeline_optimized.py: [run_pipeline] *)

Module JaffleShopPipelineOptimizedRun.

(** [os.environ] after the assignments at the top of the module. *)
Definition environ : gmap string string :=
  <["NORMALIZE__CHUNK_SIZE" := "1000"]>
  (<["EXTRACT__CHUNK_SIZE" := "1000"]>
  (<["NORMALIZE__DATA_WRITER__BUFFER_MAX_ITEMS" := "1000"]>
  (<["EXTRACT__DATA_WRITER__BUFFER_MAX_ITEMS" := "2000"]>
  (<["NORMALIZE__DATA_WRITER__FILE_MAX_ITEMS" := "1000"]>
  (<["EXTRACT__DATA_WRITER__FILE_MAX_ITEMS" := "1000"]>
  (<["LOAD__WORKERS" := "4"]>
  (<["NORMALIZE__WORKERS" := "2"]>
  (<["EXTRACT__WORKERS" := "3"]> ∅)))))))).

(** [jaffle_shop_source()]: both resources. *)
Definition jaffle_shop_source : list string := ["customers"; "orders"].

Definition run_pipeline : M Stats :=
  ts ← datetime_now_isoformat;
  let stats :=
    mkStats "jaffle_shop_optimized" ts ∅
      (Some (<["buffer_max_items" := environ !! "EXTRACT__DATA_WRITER__BUFFER_MAX_ITEMS"]>
            (<["file_max_items" := environ !! "EXTRACT__DATA_WRITER__FILE_MAX_ITEMS"]>
            (<["load_workers" := environ !! "LOAD__WORKERS"]>
            (<["normalize_workers" := environ !! "NORMALIZE__WORKERS"]>
            (<["extract_workers" := environ !! "EXTRACT__WORKERS"]> ∅))))))
      None None in
  logger_info [Lit "Initializing pipeline"];;
  dlt_pipeline "jaffle_shop_optimized" "duckdb" "jaffle_shop_data" "log";;
  (* Measure extract time *)
  logger_info [Lit "Starting extraction stage"];;
  extract_start ← time_time;
  pipeline_extract jaffle_shop_source;;
  t ← time_time;
  let extract_time := (t - extract_start)%float in
  let stats := set_stage "extract" extract_time stats in
  logger_info [Lit "Extraction completed in "; Fixed2 extract_time; Lit "s"];;
  (* Measure normalize time *)
  logger_info [Lit "Starting normalization stage"];;
  normalize_start ← time_time;
  pipeline_normalize;;
  t ← time_time;
  let normalize_time := (t - normalize_start)%float in
  let stats := set_stage "normalize" normalize_time stats in
  logger_info [Lit "Normalization completed in "; Fixed2 normalize_time; Lit "s"];;
  (* Measure load time *)
  logger_info [Lit "Starting load stage"];;
  load_start ← time_time;
  pipeline_load;;
  t ← time_time;
  let load_time := (t - load_start)%float in
  let stats := set_stage "load" load_time stats in
  logger_info [Lit "Load completed in "; Fixed2 load_time; Lit "s"];;
  (* Add total time and trace *)
  let stats := set_total (extract_time + normalize_time + load_time)%float stats in
  tr ← pipeline_last_trace;
  let stats := set_trace tr stats in
  log_summary stats extract_time normalize_time load_time;;
  mret stats.

(** [if __name__ == "__main__": run_pipeline()] *)
Definition main : M Stats := run_pipeline.

End JaffleShopPipelineOptimizedRun.

(** The two files that have a harness. *)
Inductive HarnessVariant : Type := basic | optimized.

Definition run_pipeline (h : HarnessVariant) : M Stats :=
  match h with
  | basic => JaffleShopPipelineRun.run_pipeline
  | optimized => JaffleShopPipelineOptimizedRun.run_pipeline
  end.

Definition main (h : HarnessVariant) : M Stats :=
  match h with
  | basic => JaffleShopPipelineRun.main
  | optimized => JaffleShopPipelineOptimizedRun.main
  end.

(** *** Reading a harness trace *)

Definition is_stage_event (ev : HEvent) : bool :=
  match ev with HCall _ _ | HReturn _ => true | _ => false end.

(** The calls into the framework and their returns, in order. *)
Definition stage_events (tr : list HEvent) : list HEvent :=
  List.filter is_stage_event tr.

(** The stages called, in order. *)
Definition calls_of (tr : list HEvent) : list Stage :=
  omap (fun ev => match ev with HCall s _ => Some s | _ => None end) tr.

(** What stands between the two clock readings that measure a stage: the
    events after the [k]-th reading up to the next one. *)
Fixpoint after_reading (k : nat) (tr : list HEvent) : list HEvent :=
  match tr with
  | [] => []
  | HTime _ :: rest =>
      match k with
      | O => (fix upto (l : list HEvent) : list HEvent :=
                match l with
                | [] => []
                | HTime _ :: _ => []
                | ev :: l' => ev :: upto l'
                end) rest
      | S k' => after_reading k' rest
      end
  | _ :: rest => after_reading k rest
  end.

(** A world in which every stage returns; its clock reads [readings] in
    order and 0 afterwards. *)
Definition calm_world (readings : list float) : World :=
  mkWorld (fun k => default 0%float (readings !! k)) "2024-01-01T00:00:00"
          None None None "trace".

(** The same world with stage [s] raising [e]. *)
Definition failing_world (readings : list float) (s : Stage) (e : exn) : World :=
  mkWorld (fun k => default 0%float (readings !! k)) "2024-01-01T00:00:00"
          (match s with Extract => Some e | _ => None end)
          (match s with Normalize => Some e | _ => None end)
          (match s with Load => Some e | _ => None end)
          "trace".

(** *** Vocabulary for the statements about the fetcher *)

(** The URL a variant requests for an endpoint. *)
Definition endpoint_url (v : Variant) (endpoint : string) : string :=
  BASE_URL v +:+ "/" +:+ endpoint.

(** The log lines a variant writes when the loop breaks. *)
Definition finish_log (v : Variant) (endpoint : string) : list Event :=
  match v with
  | deploy_pipeline => []
  | _ => [ELog ("Finished fetching " +:+ endpoint +:+ " data")]
  end.

(** What the loop does with the result [x] of fetching a page at which it
    stops: the pages it still yields and how the run ends. [None] when the
    loop goes on after [x]. *)
Definition last_step (x : result pyval) : option (list pyval * Outcome) :=
  match x with
  | Raise e => Some ([], Failed e)
  | Ok d =>
      match page_is_last d with
      | Ok true => Some ([d], Finished)
      | Ok false => None
      | Raise e => Some ([d], Failed e)
      end
  end.

(** A page of records [{"id": n}], one per element of [ids]. *)
Definition page_of_ids (ids : list Z) : pyval :=
  PyList ((fun n => PyDict [("id", PyInt n)]) <$> ids).

(** A server whose first page has status 300 (Multiple Choices) and a
    non-empty body, and whose other pages are empty with status 200. *)
Definition server_300_then_empty : Server :=
  fun rq =>
    match params rq with
    | [(_, 1%Z)] => Ok (mkResponse 300 (Some (page_of_ids [1%Z])))
    | _ => Ok (mkResponse 200 (Some (PyList [])))
    end.

(** The trace of a run that yields the pages [ds], the first of them page
    [p]: each page is requested, then yielded, before the next is requested. *)
Fixpoint interleave (url : string) (p : Z) (ds : list pyval) : list Event :=
  match ds with
  | [] => []
  | d :: ds' => EGet (page_request url p) :: EYield d :: interleave url (p + 1) ds'
  end.

(** ** The resources *)

(** The frame of a resource generator ([get_customers], [get_orders]): not
    started, inside its [for] loop over a [get_paginated_data] generator, or
    finished. *)
Inductive ResourceFrame : Type :=
| RCreated
| RIterating (inner : Frame)
| RExhausted.

Definition ResourceGenerator : Type :=
  ResourceFrame -> list Event * Resumed * ResourceFrame.

(** A consumer of a resource that asks at most [pulls] times. *)
Fixpoint consume_resource (g : ResourceGenerator) (pulls : nat) (f : ResourceFrame)
  : list Event * Outcome :=
  match pulls with
  | O => ([], Pending)
  | S pulls' =>
      match g f with
      | (evs, Yielded v, f') =>
          let (rest, o) := consume_resource g pulls' f' in
          (evs ++ EYield v :: rest, o)
      | (evs, StopIteration, _) => (evs, Finished)
      | (evs, Raised e, _) => (evs, Failed e)
      end
  end.

(** *** jaffle_shop_pipeline.py: [get_customers], [get_orders] *)

Module JaffleShopPipelineResources.

(** One turn of [for page in get_paginated_data(...): yield page], and the
    log line after the loop when the inner generator is exhausted. An
    exception of the inner generator leaves the function. *)
Definition for_page (server : Server) (completed : string) (inner : Frame)
  : list Event * Resumed * ResourceFrame :=
  match JaffleShopPipeline.get_paginated_data server inner with
  | (evs, Yielded page, inner') => (evs, Yielded page, RIterating inner')
  | (evs, StopIteration, _) => (evs ++ [ELog completed], StopIteration, RExhausted)
  | (evs, Raised e, _) => (evs, Raised e, RExhausted)
  end.

Definition get_customers (server : Server) : ResourceGenerator :=
  fun f =>
    match f with
    | RCreated =>
        match for_page server "Completed customers data extraction" (Created "customers") with
        | (evs, r, f') => (ELog "Starting customers data extraction" :: evs, r, f')
        end
    | RIterating inner => for_page server "Completed customers data extraction" inner
    | RExhausted => ([], StopIteration, RExhausted)
    end.

Definition get_orders (server : Server) : ResourceGenerator :=
  fun f =>
    match f with
    | RCreated =>
        match for_page server "Completed orders data extraction" (Created "orders") with
        | (evs, r, f') => (ELog "Starting orders data extraction" :: evs, r, f')
        end
    | RIterating inner => for_page server "Completed orders data extraction" inner
    | RExhausted => ([], StopIteration, RExhausted)
    end.

End JaffleShopPipelineResources.

(** *** deploy_pipeline.py: [get_customers] *)

Module DeployPipelineResources.

Definition for_page (server : Server) (inner : Frame)
  : list Event * Resumed * ResourceFrame :=
  match DeployPipeline.get_paginated_data server inner with
  | (evs, Yielded page, inner') => (evs, Yielded page, RIterating inner')
  | (evs, StopIteration, _) => (evs, StopIteration, RExhausted)
  | (evs, Raised e, _) => (evs, Raised e, RExhausted)
  end.

Definition get_customers (server : Server) : ResourceGenerator :=
  fun f =>
    match f with
    | RCreated => for_page server (Created "customers")
    | RIterating inner => for_page server inner
    | RExhausted => ([], StopIteration, RExhausted)
    end.

End DeployPipelineResources.

(** *** jaffle_shop_pipeline_optimized.py: [get_customers], [get_orders] *)

Module JaffleShopPipelineOptimizedResources.

Definition for_page (server : Server) (completed : string) (inner : Frame)
  : list Event * Resumed * ResourceFrame :=
  match JaffleShopPipelineOptimized.get_paginated_data server inner with
  | (evs, Yielded page, inner') => (evs, Yielded page, RIterating inner')
  | (evs, StopIteration, _) => (evs ++ [ELog completed], StopIteration, RExhausted)
  | (evs, Raised e, _) => (evs, Raised e, RExhausted)
  end.

Definition get_customers (server : Server) : ResourceGenerator :=
  fun f =>
    match f with
    | RCreated =>
        match for_page server "Completed customers data extraction" (Created "customers") with
        | (evs, r, f') => (ELog "Starting customers data extraction" :: evs, r, f')
        end
    | RIterating inner => for_page server "Completed customers data extraction" inner
    | RExhausted => ([], StopIteration, RExhausted)
    end.

Definition get_orders (server : Server) : ResourceGenerator :=
  fun f =>
    match f with
    | RCreated =>
        match for_page server "Completed orders data extraction" (Created "orders") with
        | (evs, r, f') => (ELog "Starting orders data extraction" :: evs, r, f')
        end
    | RIterating inner => for_page server "Completed orders data extraction" inner
    | RExhausted => ([], StopIteration, RExhausted)
    end.

End JaffleShopPipelineOptimizedResources.

(** The resource functions of the three files. *)
Inductive Resource : Type :=
| basic_get_customers
| basic_get_orders
| deploy_get_customers
| optimized_get_customers
| optimized_get_orders.

Definition resource_generator (r : Resource) (server : Server) : ResourceGenerator :=
  match r with
  | basic_get_customers => JaffleShopPipelineResources.get_customers server
  | basic_get_orders => JaffleShopPipelineResources.get_orders server
  | deploy_get_customers => DeployPipelineResources.get_customers server
  | optimized_get_customers => JaffleShopPipelineOptimizedResources.get_customers server
  | optimized_get_orders => JaffleShopPipelineOptimizedResources.get_orders server
  end.

(** The file a resource is defined in and the endpoint it reads. *)
Definition resource_variant (r : Resource) : Variant :=
  match r with
  | basic_get_customers | basic_get_orders => jaffle_shop_pipeline
  | deploy_get_customers => deploy_pipeline
  | optimized_get_customers | optimized_get_orders => jaffle_shop_pipeline_optimized
  end.

Definition resource_endpoint (r : Resource) : string :=
  match r with
  | basic_get_customers | deploy_get_customers | optimized_get_customers => "customers"
  | basic_get_orders | optimized_get_orders => "orders"
  end.

(** The log lines a resource writes before its loop and after it. *)
Definition starting_log (r : Resource) : list Event :=
  match r with
  | deploy_get_customers => []
  | _ => [ELog ("Starting " +:+ resource_endpoint r +:+ " data extraction")]
  end.

Definition completed_log (r : Resource) : list Event :=
  match r with
  | deploy_get_customers => []
  | _ => [ELog ("Completed " +:+ resource_endpoint r +:+ " data extraction")]
  end.

(** The log lines after the loop of a resource, by the way the inner
    generator ended. *)
Definition closing_log (r : Resource) (o : Outcome) : list Event :=
  match o with
  | Finished => completed_log r
  | _ => []
  end.

(** [extract r server pulls]: the resource [r], iterated by a consumer that
    asks at most [pulls] times. *)
Definition extract (r : Resource) (server : Server) (pulls : nat) : list Event * Outcome :=
  consume_resource (resource_generator r server) pulls RCreated.

(** A server that answers every request with status 200 and the same
    one-record page. *)
Definition endless_server : Server :=
  fun _ => Ok (mkResponse 200 (Some (page_of_ids [1%Z]))).

(** ** The fetcher: unfolding the loop *)

Section Pagination.

Variable v : Variant.
Variable server : Server.

Local Abbreviation g := (get_paginated_data v server).

(** Resuming after a page that goes on: the next page is requested. *)
Lemma resume_continue ep url p d n :
  continues d ->
  consume g (S n) (AtYield ep url p d) =
    match fetch_page server url (p + 1) with
    | Raise e => ([EGet (page_request url (p + 1))], Failed e)
    | Ok d' =>
        let (rest, o) := consume g n (AtYield ep url (p + 1) d') in
        (EGet (page_request url (p + 1)) :: EYield d' :: rest, o)
    end.
Proof.
  unfold continues; intros Hd.
  destruct v; simpl; rewrite Hd;
    [ unfold JaffleShopPipeline.iteration
    | unfold DeployPipeline.iteration
    | unfold JaffleShopPipelineOptimized.iteration ];
    destruct (fetch_page server url (p + 1)); reflexivity.
Qed.

(** Resuming after a last page: the loop breaks. *)
Lemma resume_last ep url p d n :
  page_is_last d = Ok true ->
  consume g (S n) (AtYield ep url p d) = (finish_log v ep, Finished).
Proof.
  intros Hd. destruct v; simpl; rewrite Hd; reflexivity.
Qed.

(** Resuming after a page on which the loop test raises. *)
Lemma resume_raise ep url p d e n :
  page_is_last d = Raise e ->
  consume g (S n) (AtYield ep url p d) = ([], Failed e).
Proof.
  intros Hd. destruct v; simpl; rewrite Hd; reflexivity.
Qed.

(** A fresh generator behaves like one suspended at page 0 on a page that
    goes on: its first resumption requests page 1. *)
Lemma start_is_resume ep n :
  consume g n (Created ep) =
  consume g n (AtYield ep (endpoint_url v ep) 0 (PyList [PyNone])).
Proof.
  destruct n; [reflexivity|]. destruct v; reflexivity.
Qed.

Lemma continues_start : continues (PyList [PyNone]).
Proof. reflexivity. Qed.

(** The run through the pages [pages], all of which go on, up to a page
    at which the loop stops. *)
Lemma run_pages ep url pages :
  forall p d0 x ys o n,
    continues d0 ->
    Forall continues pages ->
    (forall i d, pages !! i = Some d ->
                 fetch_page server url (p + 1 + Z.of_nat i) = Ok d) ->
    fetch_page server url (p + 1 + Z.of_nat (length pages)) = x ->
    last_step x = Some (ys, o) ->
    exists tr,
      consume g (length pages + length ys + 1 + n) (AtYield ep url p d0) = (tr, o) /\
      yields_of tr = pages ++ ys /\
      requests_of tr = page_request url <$> seqZ (p + 1) (Z.of_nat (length pages) + 1).
Proof.
  induction pages as [|d1 ps IH]; intros p d0 x ys o n Hd0 Hall Hserve Hx Hlast.
  - simpl length in *. replace (p + 1 + Z.of_nat 0)%Z with (p + 1)%Z in Hx by lia.
    destruct x as [d|e]; simpl in Hlast.
    + destruct (page_is_last d) as [[|]|e] eqn:Hd; inversion Hlast; subst;
        change (0 + length [d] + 1 + n)%nat with (S (S n));
        rewrite (resume_continue _ _ _ _ _ Hd0), Hx.
      * rewrite (resume_last _ _ _ _ _ Hd).
        eexists; split; [reflexivity|]. split.
        -- destruct v; reflexivity.
        -- destruct v; reflexivity.
      * rewrite (resume_raise _ _ _ _ _ _ Hd).
        eexists; split; [reflexivity|]. split; reflexivity.
    + inversion Hlast; subst.
      change (0 + length (@nil pyval) + 1 + n)%nat with (S n).
      rewrite (resume_continue _ _ _ _ _ Hd0), Hx.
      eexists; split; [reflexivity|]. split; reflexivity.
  - apply Forall_cons in Hall as [Hd1 Hps].
    change (length (d1 :: ps) + length ys + 1 + n)%nat
      with (S (length ps + length ys + 1 + n)).
    rewrite (resume_continue _ _ _ _ _ Hd0).
    assert (H1 : fetch_page server url (p + 1) = Ok d1).
    { replace (p + 1)%Z with (p + 1 + Z.of_nat 0)%Z by lia. apply Hserve. reflexivity. }
    rewrite H1.
    destruct (IH (p + 1)%Z d1 x ys o n Hd1 Hps) as (tr & Hrun & Hy & Hr).
    + intros i d Hi.
      replace (p + 1 + 1 + Z.of_nat i)%Z with (p + 1 + Z.of_nat (S i))%Z by lia.
      apply Hserve. exact Hi.
    + rewrite <- Hx. f_equal. simpl length. lia.
    + exact Hlast.
    + rewrite Hrun. eexists; split; [reflexivity|]. split.
      * simpl. f_equal. exact Hy.
      * simpl length.
        rewrite (seqZ_cons (p + 1)) by lia.
        replace (Z.pred (Z.of_nat (S (length ps)) + 1)) with (Z.of_nat (length ps) + 1)%Z by lia.
        simpl. f_equal. exact Hr.
Qed.

(** The same run, from a fresh generator. *)
Lemma fetch_pages ep pages x ys o n :
  Forall continues pages ->
  (forall i d, pages !! i = Some d ->
               fetch_page server (endpoint_url v ep) (Z.of_nat i + 1) = Ok d) ->
  fetch_page server (endpoint_url v ep) (Z.of_nat (length pages) + 1) = x ->
  last_step x = Some (ys, o) ->
  exists tr,
    fetch v server ep (length pages + length ys + 1 + n) = (tr, o) /\
    yields_of tr = pages ++ ys /\
    requests_of tr =
      page_request (endpoint_url v ep) <$> seqZ 1 (Z.of_nat (length pages) + 1).
Proof.
  intros Hall Hserve Hx Hlast. unfold fetch. rewrite start_is_resume.
  apply (run_pages ep _ pages 0%Z _ x ys o n continues_start Hall).
  - intros i d Hi. rewrite <- (Hserve i d Hi). f_equal. lia.
  - rewrite <- Hx. f_equal. lia.
  - exact Hlast.
Qed.

End Pagination.

(** Reading the page numbers back from requests of the form the loop makes. *)
Lemma pages_of_requests (url : string) (tr : list Event) (ps : list Z) :
  requests_of tr = page_request url <$> ps -> pages_of tr = ps.
Proof.
  unfold pages_of. intros ->. induction ps as [|n ps IH]; simpl; [reflexivity|].
  f_equal. exact IH.
Qed.

(** The loop test raises nothing but the [TypeError] of [len]. *)
Lemma page_is_last_raises (d : pyval) (e : exn) :
  page_is_last d = Raise e -> e = TypeError /\ truthy d = true /\ len d = Raise TypeError.
Proof.
  unfold page_is_last. destruct (truthy d) eqn:Ht; simpl; [|discriminate].
  destruct d; simpl; try discriminate; intros H; inversion H; auto.
Qed.

(** A falsy page ends the loop, whether or not it has a length. *)
Lemma falsy_is_last (d : pyval) : truthy d = false -> page_is_last d = Ok true.
Proof. unfold page_is_last. intros ->. reflexivity. Qed.

(** A page goes on exactly when it is truthy and has a length. *)
Lemma continues_iff (d : pyval) :
  continues d <-> truthy d = true /\ exists n, len d = Ok n.
Proof.
  unfold continues, page_is_last. split.
  - destruct (truthy d) eqn:Ht; simpl; [|discriminate].
    destruct (len d) as [n|e]; [|discriminate]. eauto.
  - intros [Ht [n Hn]]. rewrite Ht, Hn. simpl.
    destruct d; simpl in *; try discriminate; inversion Hn; subst.
    + destruct s; [discriminate|reflexivity].
    + destruct xs; [discriminate|reflexivity].
    + destruct items; [discriminate|reflexivity].
Qed.


Section Shape.

Variable v : Variant.
Variable server : Server.

Local Abbreviation g := (get_paginated_data v server).




(** If some page after the current one is falsy and every page before it
    is served, the run ends within that many pages, whatever the number of
    further pulls. *)
Lemma resume_terminates ep url m :
  forall p d0 dl,
    continues d0 ->
    (forall i, (p < i)%Z -> exists d, fetch_page server url i = Ok d) ->
    fetch_page server url (p + 1 + Z.of_nat m) = Ok dl ->
    truthy dl = false ->
    exists (k : nat) tr o,
      (1 <= k <= m + 1)%nat /\
      (o = Finished \/ o = Failed TypeError) /\
      length (yields_of tr) = k /\
      forall n, consume g (k + 1 + n) (AtYield ep url p d0) = (tr, o).
Proof.
  induction m as [|m IH]; intros p d0 dl Hd0 Hok Hdl Hfalsy.
  - replace (p + 1 + Z.of_nat 0)%Z with (p + 1)%Z in Hdl by lia.
    exists 1%nat. eexists. exists Finished. repeat split; [lia|lia|auto| |].
    2:{ intros n. change (1 + 1 + n)%nat with (S (S n)).
        rewrite (resume_continue _ _ _ _ _ _ _ Hd0), Hdl.
        rewrite (resume_last _ _ _ _ _ _ _ (falsy_is_last _ Hfalsy)). reflexivity. }
    destruct v; reflexivity.
  - destruct (Hok (p + 1)%Z ltac:(lia)) as [d1 Hd1].
    destruct (page_is_last d1) as [[|]|e] eqn:Hl.
    + exists 1%nat. eexists. exists Finished. repeat split; [lia|lia|auto| |].
      2:{ intros n. change (1 + 1 + n)%nat with (S (S n)).
          rewrite (resume_continue _ _ _ _ _ _ _ Hd0), Hd1.
          rewrite (resume_last _ _ _ _ _ _ _ Hl). reflexivity. }
      destruct v; reflexivity.
    + destruct (IH (p + 1)%Z d1 dl Hl) as (k & tr & o & Hk & Ho & Hlen & Hrun).
      * intros i Hi. apply Hok. lia.
      * rewrite <- Hdl. f_equal. lia.
      * exact Hfalsy.
      * exists (S k). eexists. exists o. repeat split; [lia|lia|exact Ho| |].
        2:{ intros n. change (S k + 1 + n)%nat with (S (k + 1 + n)).
            rewrite (resume_continue _ _ _ _ _ _ _ Hd0), Hd1, Hrun. reflexivity. }
        simpl. f_equal. exact Hlen.
    + destruct (page_is_last_raises _ _ Hl) as [-> _].
      exists 1%nat. eexists. exists (Failed TypeError). repeat split; [lia|lia|auto| |].
      2:{ intros n. change (1 + 1 + n)%nat with (S (S n)).
          rewrite (resume_continue _ _ _ _ _ _ _ Hd0), Hd1.
          rewrite (resume_raise _ _ _ _ _ _ _ _ Hl). reflexivity. }
      reflexivity.
Qed.

End Shape.

(** One resumption in two variants: the same result and the same next
    frame, and the same events once the log lines are dropped. *)
Lemma resume_equiv (v1 v2 : Variant) (server : Server) (f : Frame) :
  erase_logs (get_paginated_data v1 server f).1.1 =
    erase_logs (get_paginated_data v2 server f).1.1 /\
  (get_paginated_data v1 server f).1.2 = (get_paginated_data v2 server f).1.2 /\
  (get_paginated_data v1 server f).2 = (get_paginated_data v2 server f).2.
Proof.
  destruct f as [ep|ep url p d|].
  - destruct v1, v2; simpl; auto.
  - destruct v1, v2; simpl; destruct (page_is_last d) as [[|]|e]; simpl; auto.
  - destruct v1, v2; simpl; auto.
Qed.

Lemma erase_logs_app (a b : list Event) :
  erase_logs (a ++ b) = erase_logs a ++ erase_logs b.
Proof. unfold erase_logs. apply List.filter_app. Qed.

(** The whole run in two variants. *)
Lemma consume_equiv (v1 v2 : Variant) (server : Server) (n : nat) :
  forall f,
    erase_logs (consume (get_paginated_data v1 server) n f).1 =
      erase_logs (consume (get_paginated_data v2 server) n f).1 /\
    (consume (get_paginated_data v1 server) n f).2 =
      (consume (get_paginated_data v2 server) n f).2.
Proof.
  induction n as [|n IH]; intros f; [split; reflexivity|].
  destruct (resume_equiv v1 v2 server f) as (He & Hr & Hf).
  simpl.
  destruct (get_paginated_data v1 server f) as [[e1 r1] f1].
  destruct (get_paginated_data v2 server f) as [[e2 r2] f2].
  simpl in He, Hr, Hf. subst r2 f2.
  destruct r1 as [d| |e]; simpl; auto.
  destruct (IH f1) as [IHe IHo].
  destruct (consume (get_paginated_data v1 server) n f1) as [t1 o1].
  destruct (consume (get_paginated_data v2 server) n f1) as [t2 o2].
  simpl in *. split; [|exact IHo].
  rewrite !erase_logs_app. simpl. rewrite He, IHe. reflexivity.
Qed.

Lemma requests_of_erase_logs (tr : list Event) :
  requests_of (erase_logs tr) = requests_of tr.
Proof.
  induction tr as [|[rq|d|msg] tr IH]; simpl; [reflexivity| | |exact IH].
  - f_equal. exact IH.
  - exact IH.
Qed.

Lemma yields_of_erase_logs (tr : list Event) :
  yields_of (erase_logs tr) = yields_of tr.
Proof.
  induction tr as [|[rq|d|msg] tr IH]; simpl; [reflexivity| | |exact IH].
  - exact IH.
  - f_equal. exact IH.
Qed.

(** ** The fetcher: properties *)

(** C1. For every variant and endpoint: when the server answers the first
    pages with bodies that go on (non-empty) and the next page with a falsy
    body, a consumer that iterates to the end gets exactly those pages
    followed by the falsy one, the pages requested are 1, 2, ... up to the
    falsy page and no further, and the generator ends normally. With two
    non-empty pages and an empty third: three pages yielded, pages 1, 2, 3
    requested. *)
Theorem fetch_stops_after_first_empty_page
  (v : Variant) (server : Server) (endpoint : string)
  (pages : list pyval) (last : pyval) (pulls : nat) :
  Forall continues pages ->
  truthy last = false ->
  (forall i d, (pages ++ [last]) !! i = Some d ->
     fetch_page server (endpoint_url v endpoint) (Z.of_nat i + 1) = Ok d) ->
  (length pages + 2 <= pulls)%nat ->
  exists tr,
    fetch v server endpoint pulls = (tr, Finished) /\
    yields_of tr = pages ++ [last] /\
    pages_of tr = seqZ 1 (Z.of_nat (length pages) + 1) /\
    requests_of tr =
      page_request (endpoint_url v endpoint) <$> seqZ 1 (Z.of_nat (length pages) + 1).
Proof.
  intros Hall Hfalsy Hserve Hpulls.
  destruct (fetch_pages v server endpoint pages (Ok last) [last] Finished
              (pulls - (length pages + 2))) as (tr & Hrun & Hy & Hr).
  - exact Hall.
  - intros i d Hi. apply Hserve. rewrite lookup_app_l; [exact Hi|].
    apply lookup_lt_Some in Hi. exact Hi.
  - apply Hserve. rewrite lookup_app_r by lia.
    replace (length pages - length pages)%nat with 0%nat by lia. reflexivity.
  - simpl. rewrite (falsy_is_last _ Hfalsy). reflexivity.
  - exists tr. replace pulls with (length pages + length [last] + 1 + (pulls - (length pages + 2)))%nat
      by (simpl; lia).
    split; [exact Hrun|]. split; [exact Hy|]. split; [|exact Hr].
    apply (pages_of_requests _ _ _ Hr).
Qed.

Lemma fetch_stops_after_first_empty_page_witness :
  exists tr,
    fetch jaffle_shop_pipeline
          (serve_pages [page_of_ids [1; 2]%Z; page_of_ids [3%Z]; PyList []])
          "customers" 4 = (tr, Finished) /\
    yields_of tr = [page_of_ids [1; 2]%Z; page_of_ids [3%Z]] ++ [PyList []] /\
    pages_of tr = seqZ 1 3 /\
    requests_of tr =
      page_request (endpoint_url jaffle_shop_pipeline "customers") <$> seqZ 1 3.
Proof.
  apply (fetch_stops_after_first_empty_page jaffle_shop_pipeline
           (serve_pages [page_of_ids [1; 2]%Z; page_of_ids [3%Z]; PyList []])
           "customers" [page_of_ids [1; 2]%Z; page_of_ids [3%Z]] (PyList []) 4).
  - repeat constructor.
  - reflexivity.
  - intros [|[|[|i]]] d Hi; simpl in Hi; inversion Hi; reflexivity.
  - simpl; lia.
Defined.

(** C4, as the code has it. For every variant and endpoint: when the pages
    before page N go on and the response for page N has a status from 400
    to 599, the statuses [raise_for_status] rejects, the run fails with the
    HTTP error of that status: the pages before N are the only ones
    yielded, page N is requested once and page N+1 never. *)
Theorem fetch_fails_fast_on_error_status
  (v : Variant) (server : Server) (endpoint : string)
  (pages : list pyval) (r : Response) (pulls : nat) :
  Forall continues pages ->
  (forall i d, pages !! i = Some d ->
     fetch_page server (endpoint_url v endpoint) (Z.of_nat i + 1) = Ok d) ->
  server (page_request (endpoint_url v endpoint) (Z.of_nat (length pages) + 1)) = Ok r ->
  (400 <= status_code r < 600)%Z ->
  (length pages + 1 <= pulls)%nat ->
  exists tr,
    fetch v server endpoint pulls = (tr, Failed (HTTPError (status_code r))) /\
    yields_of tr = pages /\
    pages_of tr = seqZ 1 (Z.of_nat (length pages) + 1) /\
    requests_of tr =
      page_request (endpoint_url v endpoint) <$> seqZ 1 (Z.of_nat (length pages) + 1).
Proof.
  intros Hall Hserve Hr Hstatus Hpulls.
  destruct (fetch_pages v server endpoint pages (Raise (HTTPError (status_code r))) []
              (Failed (HTTPError (status_code r)))
              (pulls - (length pages + 1))) as (tr & Hrun & Hy & Hrq).
  - exact Hall.
  - exact Hserve.
  - unfold fetch_page. unfold page_request in Hr. rewrite Hr.
    unfold raise_for_status.
    replace (400 <=? status_code r)%Z with true by (symmetry; apply Z.leb_le; lia).
    replace (status_code r <? 600)%Z with true by (symmetry; apply Z.ltb_lt; lia).
    reflexivity.
  - reflexivity.
  - exists tr.
    replace pulls with (length pages + length (@nil pyval) + 1 + (pulls - (length pages + 1)))%nat
      by (simpl; lia).
    split; [exact Hrun|]. split; [rewrite Hy; apply app_nil_r|]. split; [|exact Hrq].
    apply (pages_of_requests _ _ _ Hrq).
Qed.

Lemma fetch_fails_fast_on_error_status_witness :
  exists tr,
    fetch deploy_pipeline (serve_pages [page_of_ids [1%Z]; page_of_ids [2%Z]])
          "customers" 3 = (tr, Failed (HTTPError 404)) /\
    yields_of tr = [page_of_ids [1%Z]; page_of_ids [2%Z]] /\
    pages_of tr = seqZ 1 3 /\
    requests_of tr =
      page_request (endpoint_url deploy_pipeline "customers") <$> seqZ 1 3.
Proof.
  apply (fetch_fails_fast_on_error_status deploy_pipeline
           (serve_pages [page_of_ids [1%Z]; page_of_ids [2%Z]]) "customers"
           [page_of_ids [1%Z]; page_of_ids [2%Z]] (mkResponse 404 None) 3).
  - repeat constructor.
  - intros [|[|i]] d Hi; simpl in Hi; inversion Hi; reflexivity.
  - reflexivity.
  - simpl; lia.
  - simpl; lia.
Defined.

(** C4, as stated, fails: a response whose status is not 2xx but is not an
    error for [raise_for_status] either (here 300 with a JSON body) is
    decoded and yielded like any other page, and the next page is requested;
    the run ends normally. *)
Lemma non_2xx_page_is_yielded :
  (exists r, server_300_then_empty
               (page_request (endpoint_url jaffle_shop_pipeline "customers") 1) = Ok r /\
             ~ (200 <= status_code r < 300)%Z) /\
  fetch jaffle_shop_pipeline server_300_then_empty "customers" 3 =
    ([EGet (page_request (endpoint_url jaffle_shop_pipeline "customers") 1);
      EYield (page_of_ids [1%Z]);
      EGet (page_request (endpoint_url jaffle_shop_pipeline "customers") 2);
      EYield (PyList []);
      ELog "Finished fetching customers data"],
     Finished).
Proof.
  split.
  - eexists. split; [reflexivity|]. simpl. lia.
  - reflexivity.
Qed.


(** C6. For every variant and endpoint: if every page is served (a success
    response with well-formed JSON) and page N is falsy, the run ends after
    k pages for some k between 1 and N. It ends normally, or with the
    TypeError of the loop test on a page before N; more pulls change
    nothing. *)
Theorem fetch_terminates
  (v : Variant) (server : Server) (endpoint : string) (N : Z) (empty : pyval) :
  (1 <= N)%Z ->
  (forall i, (1 <= i)%Z ->
     exists d, fetch_page server (endpoint_url v endpoint) i = Ok d) ->
  fetch_page server (endpoint_url v endpoint) N = Ok empty ->
  truthy empty = false ->
  exists (k : nat) (tr : list Event) (o : Outcome),
    (1 <= k)%nat /\ (Z.of_nat k <= N)%Z /\
    (o = Finished \/ o = Failed TypeError) /\
    length (yields_of tr) = k /\
    forall pulls, (k < pulls)%nat -> fetch v server endpoint pulls = (tr, o).
Proof.
  intros HN Hok Hempty Hfalsy.
  destruct (resume_terminates v server endpoint (endpoint_url v endpoint)
              (Z.to_nat (N - 1)) 0%Z (PyList [PyNone]) empty)
    as (k & tr & o & Hk & Ho & Hlen & Hrun).
  - reflexivity.
  - intros i Hi. apply Hok. lia.
  - rewrite <- Hempty. f_equal. lia.
  - exact Hfalsy.
  - exists k, tr, o. split; [lia|]. split; [lia|]. split; [exact Ho|].
    split; [exact Hlen|]. intros pulls Hp. unfold fetch. rewrite start_is_resume.
    replace pulls with (k + 1 + (pulls - (k + 1)))%nat by lia. apply Hrun.
Qed.

Lemma fetch_terminates_witness :
  exists (k : nat) (tr : list Event) (o : Outcome),
    (1 <= k)%nat /\ (Z.of_nat k <= 2)%Z /\
    (o = Finished \/ o = Failed TypeError) /\
    length (yields_of tr) = k /\
    forall pulls, (k < pulls)%nat ->
      fetch jaffle_shop_pipeline (fun rq => Ok (mkResponse 200 (Some (PyList []))))
            "orders" pulls = (tr, o).
Proof.
  apply (fetch_terminates jaffle_shop_pipeline
           (fun rq => Ok (mkResponse 200 (Some (PyList [])))) "orders" 2 (PyList [])).
  - lia.
  - intros i Hi. exists (PyList []). reflexivity.
  - reflexivity.
  - reflexivity.
Defined.

(** C9. For every variant and endpoint, when the pages before page N go on
    and page N decodes to [d]: if [d] is truthy and has no length (a
    non-zero number, [true]), [d] is yielded and the run then fails with
    TypeError; if [d] is falsy, with or without a length, [d] is yielded and
    the run ends normally. In both cases nothing is requested after page N. *)
Theorem fetch_on_page_without_len
  (v : Variant) (server : Server) (endpoint : string)
  (pages : list pyval) (d : pyval) (pulls : nat) :
  Forall continues pages ->
  (forall i p, pages !! i = Some p ->
     fetch_page server (endpoint_url v endpoint) (Z.of_nat i + 1) = Ok p) ->
  fetch_page server (endpoint_url v endpoint) (Z.of_nat (length pages) + 1) = Ok d ->
  (length pages + 2 <= pulls)%nat ->
  (truthy d = true -> len d = Raise TypeError ->
   exists tr,
     fetch v server endpoint pulls = (tr, Failed TypeError) /\
     yields_of tr = pages ++ [d] /\
     pages_of tr = seqZ 1 (Z.of_nat (length pages) + 1)) /\
  (truthy d = false ->
   page_is_last d = Ok true /\
   exists tr,
     fetch v server endpoint pulls = (tr, Finished) /\
     yields_of tr = pages ++ [d] /\
     pages_of tr = seqZ 1 (Z.of_nat (length pages) + 1)).
Proof.
  intros Hall Hserve Hd Hpulls.
  assert (Hn : pulls = (length pages + length [d] + 1 + (pulls - (length pages + 2)))%nat)
    by (simpl; lia).
  split.
  - intros Ht Hlen.
    destruct (fetch_pages v server endpoint pages (Ok d) [d] (Failed TypeError)
                (pulls - (length pages + 2)) Hall Hserve Hd) as (tr & Hrun & Hy & Hr).
    + simpl. unfold page_is_last. rewrite Ht, Hlen. reflexivity.
    + exists tr. rewrite Hn. split; [exact Hrun|]. split; [exact Hy|].
      apply (pages_of_requests _ _ _ Hr).
  - intros Hf. split; [apply (falsy_is_last _ Hf)|].
    destruct (fetch_pages v server endpoint pages (Ok d) [d] Finished
                (pulls - (length pages + 2)) Hall Hserve Hd) as (tr & Hrun & Hy & Hr).
    + simpl. rewrite (falsy_is_last _ Hf). reflexivity.
    + exists tr. rewrite Hn. split; [exact Hrun|]. split; [exact Hy|].
      apply (pages_of_requests _ _ _ Hr).
Qed.

Lemma fetch_on_page_without_len_witness :
  (exists tr,
     fetch deploy_pipeline (serve_pages [page_of_ids [1%Z]; PyInt 5]) "customers" 3
       = (tr, Failed TypeError) /\
     yields_of tr = [page_of_ids [1%Z]] ++ [PyInt 5] /\
     pages_of tr = seqZ 1 2) /\
  (page_is_last PyNone = Ok true /\
   exists tr,
     fetch jaffle_shop_pipeline (serve_pages [page_of_ids [1%Z]; PyNone]) "customers" 3
       = (tr, Finished) /\
     yields_of tr = [page_of_ids [1%Z]] ++ [PyNone] /\
     pages_of tr = seqZ 1 2).
Proof.
  split.
  - apply (fetch_on_page_without_len deploy_pipeline
             (serve_pages [page_of_ids [1%Z]; PyInt 5]) "customers"
             [page_of_ids [1%Z]] (PyInt 5) 3).
    + repeat constructor.
    + intros [|i] p Hi; simpl in Hi; inversion Hi; reflexivity.
    + reflexivity.
    + simpl; lia.
    + reflexivity.
    + reflexivity.
  - apply (fetch_on_page_without_len jaffle_shop_pipeline
             (serve_pages [page_of_ids [1%Z]; PyNone]) "customers"
             [page_of_ids [1%Z]] PyNone 3).
    + repeat constructor.
    + intros [|i] p Hi; simpl in Hi; inversion Hi; reflexivity.
    + reflexivity.
    + simpl; lia.
    + reflexivity.
Defined.

(** C10. The three [get_paginated_data] are equivalent as producers of
    pages: for the same endpoint, the same server and the same number of
    pulls, any two of them make the same requests and yield the same pages
    in the same interleaving, and end in the same way; their traces differ
    by log lines only. The URLs agree because the three files have the same
    [BASE_URL]. *)
Theorem get_paginated_data_variants_equivalent
  (v1 v2 : Variant) (server : Server) (endpoint : string) (pulls : nat) :
  erase_logs (fetch v1 server endpoint pulls).1 =
    erase_logs (fetch v2 server endpoint pulls).1 /\
  requests_of (fetch v1 server endpoint pulls).1 =
    requests_of (fetch v2 server endpoint pulls).1 /\
  yields_of (fetch v1 server endpoint pulls).1 =
    yields_of (fetch v2 server endpoint pulls).1 /\
  (fetch v1 server endpoint pulls).2 = (fetch v2 server endpoint pulls).2 /\
  endpoint_url v1 endpoint = endpoint_url v2 endpoint.
Proof.
  destruct (consume_equiv v1 v2 server pulls (Created endpoint)) as [He Ho].
  unfold fetch. split; [exact He|].
  split; [rewrite <- requests_of_erase_logs, He; apply requests_of_erase_logs|].
  split; [rewrite <- yields_of_erase_logs, He; apply yields_of_erase_logs|].
  split; [exact Ho|]. destruct v1, v2; reflexivity.
Qed.

(** ** The harness: properties *)

(** Splits a conjunction into its parts, and nothing else. *)
Ltac split_all :=
  repeat match goal with
         | |- _ /\ _ => split
         end.

(** Settles which event of a computed trace a given stage call is. *)
Ltac find_call :=
  repeat match goal with
         | H : _ \/ _ |- _ => destruct H as [H|H]
         | H : False |- _ => contradiction H
         | H : HCall _ _ = HCall _ _ |- _ => inversion H; subst; clear H
         | H : _ = HCall _ _ |- _ => discriminate H
         end.

(** The result of [run_pipeline] in jaffle_shop_pipeline.py: the exception
    of the first stage that raises, or the [stats] dict. *)
Lemma run_basic_result (w : World) :
  (run (run_pipeline basic) w).1 =
  match stage_raises w Extract with
  | Some e => Raise e
  | None =>
      match stage_raises w Normalize with
      | Some e => Raise e
      | None =>
          Ok (set_trace (last_trace w)
             (set_total ((clock w 1 - clock w 0) + (clock w 3 - clock w 2)
                         + (clock w 5 - clock w 4))%float
             (set_stage "load" (clock w 5 - clock w 4)%float
             (set_stage "normalize" (clock w 3 - clock w 2)%float
             (set_stage "extract" (clock w 1 - clock w 0)%float
             (mkStats "jaffle_shop" (now_isoformat w) ∅ None None None))))))
      end
  end.
Proof.
  destruct w as [c now [e1|] [e2|] [e3|] lt]; vm_compute; reflexivity.
Qed.

(** The result of [run_pipeline] in jaffle_shop_pipeline_optimized.py. *)
Lemma run_optimized_result (w : World) :
  (run (run_pipeline optimized) w).1 =
  match stage_raises w Extract with
  | Some e => Raise e
  | None =>
      match stage_raises w Normalize with
      | Some e => Raise e
      | None =>
          match stage_raises w Load with
          | Some e => Raise e
          | None =>
              Ok (set_trace (last_trace w)
                 (set_total ((clock w 1 - clock w 0) + (clock w 3 - clock w 2)
                             + (clock w 5 - clock w 4))%float
                 (set_stage "load" (clock w 5 - clock w 4)%float
                 (set_stage "normalize" (clock w 3 - clock w 2)%float
                 (set_stage "extract" (clock w 1 - clock w 0)%float
                 (mkStats "jaffle_shop_optimized" (now_isoformat w) ∅
                    (Some (<["buffer_max_items" := Some "2000"]>
                          (<["file_max_items" := Some "1000"]>
                          (<["load_workers" := Some "4"]>
                          (<["normalize_workers" := Some "2"]>
                          (<["extract_workers" := Some "3"]> ∅))))))
                    None None))))))
          end
      end
  end.
Proof.
  destruct w as [c now [e1|] [e2|] [e3|] lt]; vm_compute; reflexivity.
Qed.

(** The three durations and the total in the [stats] dict at the end of a
    run, whatever its other entries. *)
Lemma final_stats_entries (s0 : Stats) (tr : Trace) (e n l : float) :
  let stats :=
    set_trace tr (set_total (e + n + l)%float
      (set_stage "load" l (set_stage "normalize" n (set_stage "extract" e s0)))) in
  stages stats !! "extract" = Some (mkStageStats e) /\
  stages stats !! "normalize" = Some (mkStageStats n) /\
  stages stats !! "load" = Some (mkStageStats l) /\
  total_time_seconds stats = Some (e + n + l)%float.
Proof.
  simpl. split_all.
  - rewrite lookup_insert_ne by discriminate.
    rewrite lookup_insert_ne by discriminate. apply lookup_insert_eq.
  - rewrite lookup_insert_ne by discriminate. apply lookup_insert_eq.
  - apply lookup_insert_eq.
  - reflexivity.
Qed.

(** What the trace of [run_pipeline] in jaffle_shop_pipeline.py shows of the
    stages: the calls and returns, the last event of the run, and the
    stages called. *)
Lemma run_basic_observed (w : World) :
  let tr := (run (run_pipeline basic) w).2 in
  match stage_raises w Extract, stage_raises w Normalize with
  | Some _, _ =>
      stage_events tr = [HCall Extract ["customers"]] /\
      last tr = Some (HCall Extract ["customers"]) /\
      calls_of tr = [Extract]
  | None, Some _ =>
      stage_events tr =
        [HCall Extract ["customers"]; HReturn Extract; HCall Normalize []] /\
      last tr = Some (HCall Normalize []) /\
      calls_of tr = [Extract; Normalize]
  | None, None =>
      stage_events tr =
        [HCall Extract ["customers"]; HReturn Extract;
         HCall Normalize []; HReturn Normalize] /\
      (exists line, last tr = Some (HLog line)) /\
      calls_of tr = [Extract; Normalize]
  end.
Proof.
  destruct w as [c now [e1|] [e2|] [e3|] lt]; vm_compute; split_all;
    try reflexivity; eexists; reflexivity.
Qed.

(** The same for jaffle_shop_pipeline_optimized.py. *)
Lemma run_optimized_observed (w : World) :
  let tr := (run (run_pipeline optimized) w).2 in
  match stage_raises w Extract, stage_raises w Normalize, stage_raises w Load with
  | Some _, _, _ =>
      stage_events tr = [HCall Extract ["customers"; "orders"]] /\
      last tr = Some (HCall Extract ["customers"; "orders"]) /\
      calls_of tr = [Extract]
  | None, Some _, _ =>
      stage_events tr =
        [HCall Extract ["customers"; "orders"]; HReturn Extract; HCall Normalize []] /\
      last tr = Some (HCall Normalize []) /\
      calls_of tr = [Extract; Normalize]
  | None, None, Some _ =>
      stage_events tr =
        [HCall Extract ["customers"; "orders"]; HReturn Extract;
         HCall Normalize []; HReturn Normalize; HCall Load []] /\
      last tr = Some (HCall Load []) /\
      calls_of tr = [Extract; Normalize; Load]
  | None, None, None =>
      stage_events tr =
        [HCall Extract ["customers"; "orders"]; HReturn Extract;
         HCall Normalize []; HReturn Normalize; HCall Load []; HReturn Load] /\
      (exists line, last tr = Some (HLog line)) /\
      calls_of tr = [Extract; Normalize; Load]
  end.
Proof.
  destruct w as [c now [e1|] [e2|] [e3|] lt]; vm_compute; split_all;
    try reflexivity; eexists; reflexivity.
Qed.

(** A stage call is in the trace exactly when it is among its stage events. *)
Lemma call_in_stage_events (s : Stage) (rs : list string) (tr : list HEvent) :
  In (HCall s rs) tr <-> In (HCall s rs) (stage_events tr).
Proof.
  unfold stage_events. rewrite List.filter_In. simpl. tauto.
Qed.

(** The entry point is the call of [run_pipeline]. *)
Lemma main_is_run_pipeline (h : HarnessVariant) : main h = run_pipeline h.
Proof. destruct h; reflexivity. Qed.

(** C2, on the code. [run_pipeline] of jaffle_shop_pipeline.py never calls
    [pipeline.load]: in no world does its trace hold a call of the load
    stage. In a world where every stage returns it still logs the start and
    the completion of a load stage, and the two clock readings that give
    [load_time] have nothing between them; [run_pipeline] of
    jaffle_shop_pipeline_optimized.py, in the same world, calls
    [pipeline.load] between these two readings. *)
Theorem basic_run_pipeline_never_calls_load :
  (forall w : World, ~ In Load (calls_of (run (run_pipeline basic) w).2)) /\
  calls_of (run (run_pipeline basic) (calm_world [0; 1; 5; 6; 10; 11]%float)).2
    = [Extract; Normalize] /\
  after_reading 4 (run (run_pipeline basic) (calm_world [0; 1; 5; 6; 10; 11]%float)).2
    = [] /\
  In (HLog [Lit "Starting load stage"])
     (run (run_pipeline basic) (calm_world [0; 1; 5; 6; 10; 11]%float)).2 /\
  In (HLog [Lit "Load completed in "; Fixed2 1%float; Lit "s"])
     (run (run_pipeline basic) (calm_world [0; 1; 5; 6; 10; 11]%float)).2 /\
  calls_of (run (run_pipeline optimized) (calm_world [0; 1; 5; 6; 10; 11]%float)).2
    = [Extract; Normalize; Load] /\
  after_reading 4 (run (run_pipeline optimized) (calm_world [0; 1; 5; 6; 10; 11]%float)).2
    = [HCall Load []; HReturn Load].
Proof.
  split.
  - intros w Hin. pose proof (run_basic_observed w) as Hobs. cbv zeta in Hobs.
    destruct (stage_raises w Extract); [|destruct (stage_raises w Normalize)];
      destruct Hobs as (_ & _ & Hcalls); rewrite Hcalls in Hin;
      simpl in Hin; intuition discriminate.
  - split_all; try (vm_compute; reflexivity); vm_compute; tauto.
Qed.

(** C3. In both harnesses, after a run in which no stage raised:
    [stats["stages"]] holds the three measured durations, each the
    difference of the two clock readings around its stage, and
    [stats["total_time_seconds"]] is their floating-point sum
    (extract + normalize) + load. It is not the time from the first to the
    last reading: on the clock 0, 1, 5, 6, 10, 11 the total is 3 and that
    time is 11, the gaps between the stages being left out. *)
Theorem total_time_is_sum_of_stage_times
  (h : HarnessVariant) (w : World) (stats : Stats) :
  (run (run_pipeline h) w).1 = Ok stats ->
  (exists e n l : float,
     stages stats !! "extract" = Some (mkStageStats e) /\
     stages stats !! "normalize" = Some (mkStageStats n) /\
     stages stats !! "load" = Some (mkStageStats l) /\
     e = (clock w 1 - clock w 0)%float /\
     n = (clock w 3 - clock w 2)%float /\
     l = (clock w 5 - clock w 4)%float /\
     total_time_seconds stats = Some (e + n + l)%float) /\
  (exists stats',
     (run (run_pipeline h) (calm_world [0; 1; 5; 6; 10; 11]%float)).1 = Ok stats' /\
     total_time_seconds stats' = Some 3%float /\
     (clock (calm_world [0; 1; 5; 6; 10; 11]%float) 5
      - clock (calm_world [0; 1; 5; 6; 10; 11]%float) 0)%float = 11%float /\
     (3 <? 11)%float = true).
Proof.
  intros H. split.
  - exists (clock w 1 - clock w 0)%float, (clock w 3 - clock w 2)%float,
           (clock w 5 - clock w 4)%float.
    destruct h; [rewrite run_basic_result in H|rewrite run_optimized_result in H].
    + destruct (stage_raises w Extract); [discriminate|].
      destruct (stage_raises w Normalize); [discriminate|].
      inversion H; subst; clear H.
      destruct (final_stats_entries
                  (mkStats "jaffle_shop" (now_isoformat w) ∅ None None None)
                  (last_trace w) (clock w 1 - clock w 0)%float
                  (clock w 3 - clock w 2)%float (clock w 5 - clock w 4)%float)
        as (He & Hn & Hl & Ht).
      split_all; auto.
    + destruct (stage_raises w Extract); [discriminate|].
      destruct (stage_raises w Normalize); [discriminate|].
      destruct (stage_raises w Load); [discriminate|].
      inversion H; subst; clear H.
      match goal with
      | |- context [set_stage "extract" _ ?s0] =>
          destruct (final_stats_entries s0
                      (last_trace w) (clock w 1 - clock w 0)%float
                      (clock w 3 - clock w 2)%float (clock w 5 - clock w 4)%float)
            as (He & Hn & Hl & Ht)
      end.
      split_all; auto.
  - clear H. destruct h.
    + rewrite run_basic_result. eexists. split; [reflexivity|].
      split_all; vm_compute; reflexivity.
    + rewrite run_optimized_result. eexists. split; [reflexivity|].
      split_all; vm_compute; reflexivity.
Qed.

Lemma total_time_is_sum_of_stage_times_witness :
  exists stats : Stats,
    (run (run_pipeline basic) (calm_world [0; 1; 5; 6; 10; 11]%float)).1 = Ok stats /\
    ((exists e n l : float,
        stages stats !! "extract" = Some (mkStageStats e) /\
        stages stats !! "normalize" = Some (mkStageStats n) /\
        stages stats !! "load" = Some (mkStageStats l) /\
        e = (clock (calm_world [0; 1; 5; 6; 10; 11]%float) 1
             - clock (calm_world [0; 1; 5; 6; 10; 11]%float) 0)%float /\
        n = (clock (calm_world [0; 1; 5; 6; 10; 11]%float) 3
             - clock (calm_world [0; 1; 5; 6; 10; 11]%float) 2)%float /\
        l = (clock (calm_world [0; 1; 5; 6; 10; 11]%float) 5
             - clock (calm_world [0; 1; 5; 6; 10; 11]%float) 4)%float /\
        total_time_seconds stats = Some (e + n + l)%float) /\
     (exists stats',
        (run (run_pipeline basic) (calm_world [0; 1; 5; 6; 10; 11]%float)).1 = Ok stats' /\
        total_time_seconds stats' = Some 3%float /\
        (clock (calm_world [0; 1; 5; 6; 10; 11]%float) 5
         - clock (calm_world [0; 1; 5; 6; 10; 11]%float) 0)%float = 11%float /\
        (3 <? 11)%float = true)).
Proof.
  eexists. split.
  - rewrite run_basic_result. reflexivity.
  - apply (total_time_is_sum_of_stage_times basic (calm_world [0; 1; 5; 6; 10; 11]%float)).
    rewrite run_basic_result. reflexivity.
Defined.

(** C7. A run of [run_pipeline] in jaffle_shop_pipeline_optimized.py calls
    the stages in the order extract, normalize, load, each once and each
    only after the one before has returned. When a stage raises, the run
    ends with that exception, the failing call is the last event of the
    run and no later stage is called; when none raises, all three stages
    have been called and have returned, and the run returns its stats. *)
Theorem optimized_run_stages_in_order (w : World) :
  match stage_raises w Extract, stage_raises w Normalize, stage_raises w Load with
  | Some e, _, _ =>
      (run (run_pipeline optimized) w).1 = Raise e /\
      stage_events (run (run_pipeline optimized) w).2 =
        [HCall Extract ["customers"; "orders"]] /\
      last (run (run_pipeline optimized) w).2 = Some (HCall Extract ["customers"; "orders"])
  | None, Some e, _ =>
      (run (run_pipeline optimized) w).1 = Raise e /\
      stage_events (run (run_pipeline optimized) w).2 =
        [HCall Extract ["customers"; "orders"]; HReturn Extract; HCall Normalize []] /\
      last (run (run_pipeline optimized) w).2 = Some (HCall Normalize [])
  | None, None, Some e =>
      (run (run_pipeline optimized) w).1 = Raise e /\
      stage_events (run (run_pipeline optimized) w).2 =
        [HCall Extract ["customers"; "orders"]; HReturn Extract;
         HCall Normalize []; HReturn Normalize; HCall Load []] /\
      last (run (run_pipeline optimized) w).2 = Some (HCall Load [])
  | None, None, None =>
      (exists stats, (run (run_pipeline optimized) w).1 = Ok stats) /\
      stage_events (run (run_pipeline optimized) w).2 =
        [HCall Extract ["customers"; "orders"]; HReturn Extract;
         HCall Normalize []; HReturn Normalize; HCall Load []; HReturn Load]
  end.
Proof.
  pose proof (run_optimized_observed w) as Hobs. cbv zeta in Hobs.
  rewrite run_optimized_result.
  destruct (stage_raises w Extract) as [e1|];
    [|destruct (stage_raises w Normalize) as [e2|];
      [|destruct (stage_raises w Load) as [e3|]]];
    destruct Hobs as (Hev & Hlast & _); split_all; auto.
  eexists; reflexivity.
Qed.

(** C8. In both harnesses: when a stage that [run_pipeline] calls raises,
    [run_pipeline] ends with that very exception and so does the module's
    entry point, whose process then exits with status 1. The failing call
    is the last event of the run: nothing is logged, retried or recovered
    after it; the stages called up to it are an initial part of extract,
    normalize, load, so none was called twice. *)
Theorem stage_failure_propagates
  (h : HarnessVariant) (w : World) (s : Stage) (rs : list string) (e : exn) :
  In (HCall s rs) (run (run_pipeline h) w).2 ->
  stage_raises w s = Some e ->
  (run (run_pipeline h) w).1 = Raise e /\
  (run (main h) w).1 = Raise e /\
  exit_status (run (main h) w).1 = 1%Z /\
  last (run (run_pipeline h) w).2 = Some (HCall s rs) /\
  calls_of (run (run_pipeline h) w).2 `prefix_of` [Extract; Normalize; Load].
Proof.
  intros Hin Hs. apply call_in_stage_events in Hin. revert Hin Hs.
  replace (main h) with (run_pipeline h) by (symmetry; apply main_is_run_pipeline).
  destruct h.
  - pose proof (run_basic_observed w) as Hobs. cbv zeta in Hobs.
    rewrite run_basic_result.
    destruct (stage_raises w Extract) as [e1|] eqn:HE;
      [|destruct (stage_raises w Normalize) as [e2|] eqn:HN];
      destruct Hobs as (Hev & Hlast & Hcalls); rewrite Hev, Hcalls;
      simpl; intros Hin Hs; find_call; try congruence.
    + rewrite HE in Hs. inversion Hs; subst.
      split_all; auto; eexists; reflexivity.
    + rewrite HN in Hs. inversion Hs; subst.
      split_all; auto; eexists; reflexivity.
  - pose proof (run_optimized_observed w) as Hobs. cbv zeta in Hobs.
    rewrite run_optimized_result.
    destruct (stage_raises w Extract) as [e1|] eqn:HE;
      [|destruct (stage_raises w Normalize) as [e2|] eqn:HN;
        [|destruct (stage_raises w Load) as [e3|] eqn:HL]];
      destruct Hobs as (Hev & Hlast & Hcalls); rewrite Hev, Hcalls;
      simpl; intros Hin Hs; find_call; try congruence.
    + rewrite HE in Hs. inversion Hs; subst.
      split_all; auto; eexists; reflexivity.
    + rewrite HN in Hs. inversion Hs; subst.
      split_all; auto; eexists; reflexivity.
    + rewrite HL in Hs. inversion Hs; subst.
      split_all; auto; eexists; reflexivity.
Qed.

Lemma stage_failure_propagates_witness :
  (run (run_pipeline basic)
       (failing_world [0; 1; 5]%float Normalize (Exception "PipelineStepFailed"))).1
    = Raise (Exception "PipelineStepFailed") /\
  (run (main basic)
       (failing_world [0; 1; 5]%float Normalize (Exception "PipelineStepFailed"))).1
    = Raise (Exception "PipelineStepFailed") /\
  exit_status
    (run (main basic)
         (failing_world [0; 1; 5]%float Normalize (Exception "PipelineStepFailed"))).1
    = 1%Z /\
  last (run (run_pipeline basic)
            (failing_world [0; 1; 5]%float Normalize (Exception "PipelineStepFailed"))).2
    = Some (HCall Normalize []) /\
  calls_of (run (run_pipeline basic)
                (failing_world [0; 1; 5]%float Normalize (Exception "PipelineStepFailed"))).2
    `prefix_of` [Extract; Normalize; Load].
Proof.
  apply (stage_failure_propagates basic
           (failing_world [0; 1; 5]%float Normalize (Exception "PipelineStepFailed"))
           Normalize [] (Exception "PipelineStepFailed")).
  - vm_compute. tauto.
  - reflexivity.
Defined.

(** ** Further properties of the fetcher *)

(** X1. The loop test [not data or len(data) == 0] is [not data] whenever it
    returns: it is true exactly on falsy pages, and the [len] comparison
    never makes it true, because a truthy value that has a length has a
    positive one. All the comparison adds is the TypeError on truthy values
    without a length. *)
Theorem page_is_last_is_not_truthy (d : pyval) :
  (forall b, page_is_last d = Ok b -> b = negb (truthy d)) /\
  (page_is_last d = Ok true <-> truthy d = false) /\
  (forall n, truthy d = true -> len d = Ok n -> (0 < n)%Z) /\
  (forall e, page_is_last d = Raise e <->
             e = TypeError /\ truthy d = true /\ len d = Raise TypeError).
Proof.
  assert (Htrue : page_is_last d = Ok true -> truthy d = false).
  { intros Hb. unfold page_is_last in Hb. destruct (truthy d) eqn:Ht; [|reflexivity].
    simpl in Hb. destruct d; simpl in *; try discriminate.
    - destruct s; [discriminate|]. inversion Hb.
    - destruct xs; [discriminate|]. inversion Hb.
    - destruct items; [discriminate|]. inversion Hb. }
  split; [|split; [split|split]].
  - intros b Hb. destruct (truthy d) eqn:Ht.
    + destruct b; [|reflexivity]. specialize (Htrue Hb). congruence.
    + rewrite (falsy_is_last _ Ht) in Hb. inversion Hb. reflexivity.
  - exact Htrue.
  - apply falsy_is_last.
  - intros n Ht Hn. destruct d; simpl in *; try discriminate; inversion Hn; subst.
    + destruct s; [discriminate|]. simpl. lia.
    + destruct xs; [discriminate|]. simpl. lia.
    + destruct items; [discriminate|]. simpl. lia.
  - intros e. split.
    + apply page_is_last_raises.
    + intros (-> & Ht & Hl). unfold page_is_last. rewrite Ht, Hl. reflexivity.
Qed.

(** X3. Whatever makes fetching page N fail (a connection error, an error
    status, a body that is not JSON), the run of any variant ends with that
    very exception at the N-th pull: the pages before N are yielded, page N
    is requested once and nothing after it. *)
Theorem fetch_fails_on_page_error
  (v : Variant) (server : Server) (endpoint : string)
  (pages : list pyval) (e : exn) (pulls : nat) :
  Forall continues pages ->
  (forall i d, pages !! i = Some d ->
     fetch_page server (endpoint_url v endpoint) (Z.of_nat i + 1) = Ok d) ->
  fetch_page server (endpoint_url v endpoint) (Z.of_nat (length pages) + 1) = Raise e ->
  (length pages + 1 <= pulls)%nat ->
  exists tr,
    fetch v server endpoint pulls = (tr, Failed e) /\
    yields_of tr = pages /\
    pages_of tr = seqZ 1 (Z.of_nat (length pages) + 1).
Proof.
  intros Hall Hserve He Hpulls.
  destruct (fetch_pages v server endpoint pages (Raise e) [] (Failed e)
              (pulls - (length pages + 1)) Hall Hserve He eq_refl) as (tr & Hrun & Hy & Hr).
  exists tr.
  replace pulls with (length pages + length (@nil pyval) + 1 + (pulls - (length pages + 1)))%nat
    by (simpl; lia).
  split; [exact Hrun|]. split; [rewrite Hy; apply app_nil_r|].
  apply (pages_of_requests _ _ _ Hr).
Qed.

Lemma fetch_fails_on_page_error_witness :
  exists tr,
    fetch jaffle_shop_pipeline_optimized
          (fun rq => match params rq with
                     | [(_, 1%Z)] => Ok (mkResponse 200 (Some (page_of_ids [7%Z])))
                     | _ => Ok (mkResponse 200 None)
                     end)
          "orders" 2 = (tr, Failed JSONDecodeError) /\
    yields_of tr = [page_of_ids [7%Z]] /\
    pages_of tr = seqZ 1 2.
Proof.
  apply (fetch_fails_on_page_error jaffle_shop_pipeline_optimized
           (fun rq => match params rq with
                      | [(_, 1%Z)] => Ok (mkResponse 200 (Some (page_of_ids [7%Z])))
                      | _ => Ok (mkResponse 200 None)
                      end)
           "orders" [page_of_ids [7%Z]] JSONDecodeError 2).
  - repeat constructor.
  - intros [|i] d Hi; simpl in Hi; inversion Hi; reflexivity.
  - reflexivity.
  - simpl; lia.
Defined.

Section Endless.

Variable v : Variant.
Variable server : Server.

Local Abbreviation g := (get_paginated_data v server).

(** As long as the pages go on, so does the generator. *)
Lemma resume_forever ep url n :
  forall p d0,
    continues d0 ->
    (forall i, (p < i)%Z -> exists d, fetch_page server url i = Ok d /\ continues d) ->
    exists tr,
      consume g n (AtYield ep url p d0) = (tr, Pending) /\
      length (yields_of tr) = n /\
      requests_of tr = page_request url <$> seqZ (p + 1) (Z.of_nat n).
Proof.
  induction n as [|n IH]; intros p d0 Hd0 Hall.
  - exists []. split_all; reflexivity.
  - destruct (Hall (p + 1)%Z ltac:(lia)) as (d & Hd & Hc).
    destruct (IH (p + 1)%Z d Hc) as (tr & Hrun & Hlen & Hr).
    { intros i Hi. apply Hall. lia. }
    rewrite (resume_continue _ _ _ _ _ _ _ Hd0), Hd, Hrun.
    eexists. split; [reflexivity|]. split.
    + simpl. f_equal. exact Hlen.
    + rewrite (seqZ_cons (p + 1)) by lia.
      replace (Z.pred (Z.of_nat (S n))) with (Z.of_nat n) by lia.
      simpl. f_equal. exact Hr.
Qed.

(** The trace of a run from a suspended generator, and what its outcome
    says about the last page. *)
Lemma resume_trace ep url n :
  forall p d0,
    exists ys ending,
      (consume g n (AtYield ep url p d0)).1 = interleave url (p + 1) ys ++ ending /\
      match (consume g n (AtYield ep url p d0)).2 with
      | Pending => ending = [] /\ length ys = n
      | Finished =>
          ending = finish_log v ep /\
          exists d, last (d0 :: ys) = Some d /\ page_is_last d = Ok true
      | Failed e =>
          (ending = [] /\
           exists d, last (d0 :: ys) = Some d /\ page_is_last d = Raise e) \/
          (ending = [EGet (page_request url (p + 1 + Z.of_nat (length ys)))] /\
           fetch_page server url (p + 1 + Z.of_nat (length ys)) = Raise e)
      end.
Proof.
  induction n as [|n IH]; intros p d0.
  - exists [], []. split; [reflexivity|]. split; reflexivity.
  - destruct (page_is_last d0) as [[|]|e] eqn:Hd0.
    + rewrite (resume_last _ _ _ _ _ _ _ Hd0). exists [], (finish_log v ep).
      split; [reflexivity|]. split; [reflexivity|]. exists d0. split; [reflexivity|exact Hd0].
    + rewrite (resume_continue _ _ _ _ _ _ _ Hd0).
      destruct (fetch_page server url (p + 1)) as [d'|e] eqn:Hf.
      * destruct (IH (p + 1)%Z d') as (ys & ending & Htr & Ho).
        destruct (consume g n (AtYield ep url (p + 1) d')) as [rest o].
        simpl in Htr, Ho. exists (d' :: ys), ending. split.
        -- simpl. rewrite Htr. reflexivity.
        -- simpl fst; simpl snd. destruct o as [|e|].
           ++ destruct Ho as (He & d & Hl & Hd). split; [exact He|].
              exists d. split; [|exact Hd]. rewrite last_cons_cons. exact Hl.
           ++ destruct Ho as [(He & d & Hl & Hd)|(He & Hfe)].
              ** left. split; [exact He|]. exists d. split; [|exact Hd].
                 rewrite last_cons_cons. exact Hl.
              ** right. simpl length.
                 replace (p + 1 + Z.of_nat (S (length ys)))%Z
                   with (p + 1 + 1 + Z.of_nat (length ys))%Z by lia.
                 split; assumption.
           ++ destruct Ho as (He & Hl). split; [exact He|]. simpl. f_equal. exact Hl.
      * exists [], [EGet (page_request url (p + 1))]. split; [reflexivity|].
        simpl. right. replace (p + 1 + Z.of_nat 0)%Z with (p + 1)%Z by (simpl; lia).
        split; [reflexivity|exact Hf].
    + rewrite (resume_raise _ _ _ _ _ _ _ _ Hd0). exists [], [].
      split; [reflexivity|]. left. split; [reflexivity|].
      exists d0. split; [reflexivity|exact Hd0].
Qed.

End Endless.

(** Only a falsy page makes the loop test true. *)
Lemma last_page_is_falsy (d : pyval) : page_is_last d = Ok true -> truthy d = false.
Proof.
  intros Hd. destruct (truthy d) eqn:Ht; [|reflexivity].
  destruct (len d) as [n|e] eqn:Hn.
  - destruct (continues_iff d) as [_ Hc].
    unfold continues in Hc. rewrite Hc in Hd by eauto. discriminate.
  - unfold page_is_last in Hd. rewrite Ht, Hn in Hd. discriminate.
Qed.

(** X4. When every page is served with a body after which the loop goes on
    (there is never a falsy page and never an error), the generator never
    ends: however long the consumer asks, it is still suspended, having
    yielded one page per pull and requested pages 1, 2, ... in order. *)
Theorem fetch_never_ends_without_falsy_page
  (v : Variant) (server : Server) (endpoint : string) (pulls : nat) :
  (forall i, (1 <= i)%Z ->
     exists d, fetch_page server (endpoint_url v endpoint) i = Ok d /\ continues d) ->
  exists tr,
    fetch v server endpoint pulls = (tr, Pending) /\
    length (yields_of tr) = pulls /\
    pages_of tr = seqZ 1 (Z.of_nat pulls).
Proof.
  intros Hall. unfold fetch. rewrite start_is_resume.
  destruct (resume_forever v server endpoint (endpoint_url v endpoint) pulls 0%Z
              (PyList [PyNone])) as (tr & Hrun & Hlen & Hr).
  - reflexivity.
  - intros i Hi. apply Hall. lia.
  - exists tr. split; [exact Hrun|]. split; [exact Hlen|].
    apply (pages_of_requests _ _ _ Hr).
Qed.

Lemma fetch_never_ends_without_falsy_page_witness :
  exists tr,
    fetch deploy_pipeline endless_server "customers" 50 = (tr, Pending) /\
    length (yields_of tr) = 50%nat /\
    pages_of tr = seqZ 1 (Z.of_nat 50).
Proof.
  apply (fetch_never_ends_without_falsy_page deploy_pipeline endless_server "customers" 50).
  intros i Hi. exists (page_of_ids [1%Z]). split; reflexivity.
Defined.

(** X5. The whole trace of a run, for any variant, server and number of
    pulls: request page 1, yield it, request page 2, yield it, and so on,
    followed by an ending that the outcome determines. A suspended run has
    yielded one page per pull and has no ending. A finished run ends with
    the variant's log line, and its last page is falsy. A failed run either
    ends on its last page, truthy and without a length (TypeError), or ends
    with the request of the next page, whose fetch raised the exception. *)
Theorem fetch_trace_shape
  (v : Variant) (server : Server) (endpoint : string) (pulls : nat) :
  exists ys ending,
    (fetch v server endpoint pulls).1 =
      interleave (endpoint_url v endpoint) 1 ys ++ ending /\
    match (fetch v server endpoint pulls).2 with
    | Pending => ending = [] /\ length ys = pulls
    | Finished =>
        ending = finish_log v endpoint /\
        exists d, last ys = Some d /\ truthy d = false
    | Failed e =>
        (ending = [] /\ e = TypeError /\
         exists d, last ys = Some d /\ truthy d = true /\ len d = Raise TypeError) \/
        (ending = [EGet (page_request (endpoint_url v endpoint)
                                      (Z.of_nat (length ys) + 1))] /\
         fetch_page server (endpoint_url v endpoint) (Z.of_nat (length ys) + 1) = Raise e)
    end.
Proof.
  unfold fetch. rewrite start_is_resume.
  destruct (resume_trace v server endpoint (endpoint_url v endpoint) pulls 0%Z
              (PyList [PyNone])) as (ys & ending & Htr & Ho).
  exists ys, ending. split; [exact Htr|].
  destruct (consume (get_paginated_data v server) pulls
              (AtYield endpoint (endpoint_url v endpoint) 0 (PyList [PyNone]))).2
    as [|e|].
  - destruct Ho as (He & d & Hl & Hd). split; [exact He|]. exists d.
    destruct ys as [|y ys].
    + simpl in Hl. inversion Hl; subst. discriminate Hd.
    + rewrite last_cons_cons in Hl. split; [exact Hl|].
      apply (last_page_is_falsy _ Hd).
  - destruct Ho as [(He & d & Hl & Hd)|(He & Hf)].
    + left. split; [exact He|]. destruct (page_is_last_raises _ _ Hd) as (-> & Ht & Hlen).
      split; [reflexivity|]. exists d. destruct ys as [|y ys].
      * simpl in Hl. inversion Hl; subst. discriminate Hd.
      * rewrite last_cons_cons in Hl. split_all; assumption.
    + right. replace (Z.of_nat (length ys) + 1)%Z with (0 + 1 + Z.of_nat (length ys))%Z by lia.
      split; assumption.
  - exact Ho.
Qed.

(** ** Properties of the resources *)

(** Inside its loop, a resource hands on what its [get_paginated_data]
    generator does, and adds its closing log line when that generator is
    exhausted. *)
Lemma resource_iterating (r : Resource) (server : Server) (n : nat) :
  forall f,
    consume_resource (resource_generator r server) n (RIterating f) =
    ((consume (get_paginated_data (resource_variant r) server) n f).1 ++
       closing_log r (consume (get_paginated_data (resource_variant r) server) n f).2,
     (consume (get_paginated_data (resource_variant r) server) n f).2).
Proof.
  induction n as [|n IH]; intros f; [reflexivity|].
  destruct r; simpl;
    unfold JaffleShopPipelineResources.for_page, DeployPipelineResources.for_page,
           JaffleShopPipelineOptimizedResources.for_page;
    match goal with
    | |- context [?gpd server f] =>
        destruct (gpd server f) as [[evs res] f'] eqn:Hstep
    end;
    destruct res as [d| |e]; simpl; try reflexivity;
    try (rewrite app_nil_r; reflexivity);
    rewrite IH; simpl;
    match goal with
    | |- context [consume ?g n ?x] => destruct (consume g n x) as [rest o]
    end; simpl; rewrite <- app_assoc; reflexivity.
Qed.

(** X7. A resource is a transparent wrapper of [get_paginated_data] for its
    endpoint: pulled at least once, it makes the same requests and yields
    the same pages, pull for pull, and ends the same way, exceptions passing
    through unchanged. It logs its starting line first, and its completed
    line only when the pages ran out normally, never after an exception;
    the resource of deploy_pipeline.py logs nothing. *)
Theorem resource_passes_pages_through (r : Resource) (server : Server) (pulls : nat) :
  extract r server (S pulls) =
    (starting_log r ++
     (fetch (resource_variant r) server (resource_endpoint r) (S pulls)).1 ++
     closing_log r (fetch (resource_variant r) server (resource_endpoint r) (S pulls)).2,
     (fetch (resource_variant r) server (resource_endpoint r) (S pulls)).2).
Proof.
  pose proof (resource_iterating r server (S pulls) (Created (resource_endpoint r))) as Hit.
  unfold extract, fetch.
  destruct (consume (get_paginated_data (resource_variant r) server) (S pulls)
              (Created (resource_endpoint r))) as [tr o] eqn:Hinner.
  simpl fst in *; simpl snd in *.
  destruct r; simpl in Hit |- *;
    unfold JaffleShopPipelineResources.for_page, DeployPipelineResources.for_page,
           JaffleShopPipelineOptimizedResources.for_page in *;
    match type of Hit with
    | context [?gpd server (Created ?ep)] =>
        destruct (gpd server (Created ep)) as [[evs res] f']
    end;
    destruct res as [d| |e]; simpl in *;
    try (match type of Hit with
         | context [consume_resource ?g pulls ?f] =>
             destruct (consume_resource g pulls f) as [rest o']
         end);
    inversion Hit; subst; reflexivity.
Qed.

(** ** Further properties of the harness *)

(** X8. After a run in which no stage raised, what was logged is what was
    stored: each of the three "completed in" lines and each line of the
    summary carries the duration held in [stats["stages"]] for its stage,
    the summary names the pipeline and the timestamp of [stats], and the
    last line of the run is the total held in [stats]. *)
Theorem run_logs_match_stats (h : HarnessVariant) (w : World) (stats : Stats) :
  (run (run_pipeline h) w).1 = Ok stats ->
  exists e n l t : float,
    stages stats !! "extract" = Some (mkStageStats e) /\
    stages stats !! "normalize" = Some (mkStageStats n) /\
    stages stats !! "load" = Some (mkStageStats l) /\
    total_time_seconds stats = Some t /\
    In (HLog [Lit "Extraction completed in "; Fixed2 e; Lit "s"])
       (run (run_pipeline h) w).2 /\
    In (HLog [Lit "Normalization completed in "; Fixed2 n; Lit "s"])
       (run (run_pipeline h) w).2 /\
    In (HLog [Lit "Load completed in "; Fixed2 l; Lit "s"])
       (run (run_pipeline h) w).2 /\
    In (HLog [Lit ("Pipeline: " +:+ pipeline_name stats)]) (run (run_pipeline h) w).2 /\
    In (HLog [Lit ("Timestamp: " +:+ timestamp stats)]) (run (run_pipeline h) w).2 /\
    In (HLog [Lit "Extract: "; Fixed2 e; Lit "s"]) (run (run_pipeline h) w).2 /\
    In (HLog [Lit "Normalize: "; Fixed2 n; Lit "s"]) (run (run_pipeline h) w).2 /\
    In (HLog [Lit "Load: "; Fixed2 l; Lit "s"]) (run (run_pipeline h) w).2 /\
    last (run (run_pipeline h) w).2 =
      Some (HLog [Lit (nl +:+ "Total Time: "); Fixed2 t; Lit "s"]).
Proof.
  intros H.
  destruct w as [c now e1 e2 e3 lt].
  exists (c 1%nat - c 0%nat)%float, (c 3%nat - c 2%nat)%float, (c 5%nat - c 4%nat)%float,
         ((c 1%nat - c 0%nat) + (c 3%nat - c 2%nat) + (c 5%nat - c 4%nat))%float.
  destruct h; [rewrite run_basic_result in H|rewrite run_optimized_result in H];
    cbn [stage_raises extract_raises normalize_raises load_raises
         clock now_isoformat last_trace] in H;
    destruct e1; try discriminate H; destruct e2; try discriminate H;
    destruct e3; try discriminate H;
    inversion H; subst; clear H;
    match goal with
    | |- context [set_stage "extract" _ ?s0] =>
        destruct (final_stats_entries s0 lt (c 1%nat - c 0%nat)%float
                    (c 3%nat - c 2%nat)%float (c 5%nat - c 4%nat)%float)
          as (He & Hn & Hl & Ht)
    end;
    (split; [exact He|]); (split; [exact Hn|]); (split; [exact Hl|]);
    (split; [exact Ht|]); clear He Hn Hl Ht;
    split_all; vm_compute; first [reflexivity | tauto].
Qed.

Lemma run_logs_match_stats_witness :
  exists stats : Stats,
    (run (run_pipeline optimized) (calm_world [0; 2; 3; 7; 8; 9]%float)).1 = Ok stats /\
    exists e n l t : float,
      stages stats !! "extract" = Some (mkStageStats e) /\
      stages stats !! "normalize" = Some (mkStageStats n) /\
      stages stats !! "load" = Some (mkStageStats l) /\
      total_time_seconds stats = Some t /\
      In (HLog [Lit "Extraction completed in "; Fixed2 e; Lit "s"])
         (run (run_pipeline optimized) (calm_world [0; 2; 3; 7; 8; 9]%float)).2 /\
      In (HLog [Lit "Normalization completed in "; Fixed2 n; Lit "s"])
         (run (run_pipeline optimized) (calm_world [0; 2; 3; 7; 8; 9]%float)).2 /\
      In (HLog [Lit "Load completed in "; Fixed2 l; Lit "s"])
         (run (run_pipeline optimized) (calm_world [0; 2; 3; 7; 8; 9]%float)).2 /\
      In (HLog [Lit ("Pipeline: " +:+ pipeline_name stats)])
         (run (run_pipeline optimized) (calm_world [0; 2; 3; 7; 8; 9]%float)).2 /\
      In (HLog [Lit ("Timestamp: " +:+ timestamp stats)])
         (run (run_pipeline optimized) (calm_world [0; 2; 3; 7; 8; 9]%float)).2 /\
      In (HLog [Lit "Extract: "; Fixed2 e; Lit "s"])
         (run (run_pipeline optimized) (calm_world [0; 2; 3; 7; 8; 9]%float)).2 /\
      In (HLog [Lit "Normalize: "; Fixed2 n; Lit "s"])
         (run (run_pipeline optimized) (calm_world [0; 2; 3; 7; 8; 9]%float)).2 /\
      In (HLog [Lit "Load: "; Fixed2 l; Lit "s"])
         (run (run_pipeline optimized) (calm_world [0; 2; 3; 7; 8; 9]%float)).2 /\
      last (run (run_pipeline optimized) (calm_world [0; 2; 3; 7; 8; 9]%float)).2 =
        Some (HLog [Lit (nl +:+ "Total Time: "); Fixed2 t; Lit "s"]).
Proof.
  eexists. split.
  - rewrite run_optimized_result. reflexivity.
  - apply (run_logs_match_stats optimized (calm_world [0; 2; 3; 7; 8; 9]%float)).
    rewrite run_optimized_result. reflexivity.
Defined.

(** X9. After a run in which no stage raised, [stats] names the pipeline of
    its file and holds what [pipeline.last_trace] returned, and
    [stats["stages"]] has exactly the keys extract, normalize and load,
    whatever the durations. The basic harness stores no config. *)
Theorem run_stats_contents (h : HarnessVariant) (w : World) (stats : Stats) :
  (run (run_pipeline h) w).1 = Ok stats ->
  pipeline_name stats =
    match h with basic => "jaffle_shop" | optimized => "jaffle_shop_optimized" end /\
  pipeline_trace stats = Some (last_trace w) /\
  dom (stages stats) = ({["extract"; "normalize"; "load"]} : gset string) /\
  (h = basic -> config stats = None).
Proof.
  intros H.
  destruct h; [rewrite run_basic_result in H|rewrite run_optimized_result in H];
    destruct (stage_raises w Extract); try discriminate H;
    destruct (stage_raises w Normalize); try discriminate H.
  - inversion H; subst; clear H.
    cbn [pipeline_name timestamp pipeline_trace stages config
         set_trace set_total set_stage].
    do 2 (split; [reflexivity|]). split; [|reflexivity].
    rewrite !dom_insert_L, dom_empty_L. set_solver.
  - destruct (stage_raises w Load); try discriminate H.
    inversion H; subst; clear H.
    cbn [pipeline_name timestamp pipeline_trace stages config
         set_trace set_total set_stage].
    do 2 (split; [reflexivity|]). split; [|discriminate].
    rewrite !dom_insert_L, dom_empty_L. set_solver.
Qed.

Lemma run_stats_contents_witness :
  exists stats : Stats,
    (run (run_pipeline basic) (calm_world [0; 2; 3; 7; 8; 9]%float)).1 = Ok stats /\
    (pipeline_name stats = "jaffle_shop" /\
     pipeline_trace stats = Some (last_trace (calm_world [0; 2; 3; 7; 8; 9]%float)) /\
     dom (stages stats) = ({["extract"; "normalize"; "load"]} : gset string) /\
     (basic = basic -> config stats = None)).
Proof.
  eexists. split.
  - rewrite run_basic_result. reflexivity.
  - apply (run_stats_contents basic (calm_world [0; 2; 3; 7; 8; 9]%float)).
    rewrite run_basic_result. reflexivity.
Defined.

(** X10. The run of jaffle_shop_pipeline.py does not depend on the load
    stage of the framework: whether [pipeline.load] would return or raise,
    the result and the trace are the same. In particular, when extract and
    normalize return, the run succeeds and reports a load duration even in
    a world where loading fails. *)
Theorem basic_run_ignores_load_stage
  (c : nat -> float) (now : string) (e1 e2 e3 e3' : option exn) (lt : Trace) :
  run (run_pipeline basic) (mkWorld c now e1 e2 e3 lt) =
    run (run_pipeline basic) (mkWorld c now e1 e2 e3' lt) /\
  exists stats,
    (run (run_pipeline basic) (mkWorld c now None None e3 lt)).1 = Ok stats /\
    stages stats !! "load" = Some (mkStageStats (c 5%nat - c 4%nat)%float).
Proof.
  split.
  - destruct e1, e2, e3, e3'; vm_compute; reflexivity.
  - rewrite run_basic_result.
    cbn [stage_raises extract_raises normalize_raises load_raises
         clock now_isoformat last_trace].
    eexists. split; [reflexivity|]. simpl. apply lookup_insert_eq.
Qed.

(** X11. A failing stage changes nothing of what comes before it: in both
    harnesses the trace of a run in which some stage raises is the beginning
    of the trace of the run in the same world with no stage raising. So
    nothing is skipped or added on the way to the failure, and nothing at
    all happens after it. *)
Theorem failed_run_is_prefix_of_calm_run
  (h : HarnessVariant) (c : nat -> float) (now : string)
  (e1 e2 e3 : option exn) (lt : Trace) :
  (run (run_pipeline h) (mkWorld c now e1 e2 e3 lt)).2 `prefix_of`
  (run (run_pipeline h) (mkWorld c now None None None lt)).2.
Proof.
  unfold prefix.
  destruct h, e1, e2, e3; eexists; vm_compute; reflexivity.
Qed.
